(** * Seashell offline storage: the Dexie-backed [LocalStorage] class

    A shallow embedding of [LocalStorage] (files, projects, settings and the
    pending change log kept in an IndexedDB database through Dexie) together
    with the properties of its file, project, change-log and [applyChanges]
    operations.

    Conventions of the embedding.
    - A Dexie table keyed by a string id is a [gmap string _]; the
      auto-numbered [changeLogs] table ("++id") is the sequence of its rows in
      ascending key order together with the key generator of the object store.
    - An [async] method is a function from the world (database and clock) to
      a result and a new world.  [throw] keeps the writes made so far, and
      [transaction] discards them: that is how the writes of an aborted
      IndexedDB transaction are lost.
    - [md5], [Date.now()] and [window.atob] are library calls; they are
      parameters of the development. *)

From Stdlib Require Import ZArith NArith Ascii String Sorting.Sorted.
From stdpp Require Import gmap strings list fin_maps sorting.

Open Scope string_scope.
Open Scope list_scope.

(** ** Interface: stored records *)

(** The object written by [files.add] in [newFile]. [contents] is absent after
    [writeFile(fid, undefined)]. *)
Record FileStored := mkFileStored {
  f_id : string;
  f_project : string;
  f_name : string;
  f_contents : option string;
  f_checksum : string;
  f_last_modified : Z;
  f_open : N
}.

(** The object written by [projects.add] in [newProject]. [runs] maps a
    question to the file chosen by [setFileToRun]. *)
Record ProjectStored := mkProjectStored {
  p_id : string;
  p_name : string;
  p_runs : gmap string string;
  p_last_modified : Z;
  p_open_tabs : gmap string (list string)
}.

(** The object written by [settings.put] in [setSettings]. *)
Record SettingsStored := mkSettingsStored {
  s_id : N;
  s_editor_mode : Z;
  s_font_size : Z;
  s_font : string;
  s_theme : Z;
  s_space_tab : Z;
  s_tab_width : Z
}.

(** Modelled from the spec: the classes [File], [Project], [FileBrief] and
    [ProjectBrief] of "./Interface" are not part of the sources.  [new File(f)]
    and [new Project(p)] return the full record, as [readFile] "returns the
    full File record"; a brief is the record without its bulky fields. *)
Record FileBrief := mkFileBrief {
  fb_id : string;
  fb_project : string;
  fb_name : string;
  fb_checksum : string;
  fb_last_modified : Z;
  fb_open : N
}.

Definition File (f : FileStored) : FileStored := f.
Definition Project (p : ProjectStored) : ProjectStored := p.

Definition mkBrief (f : FileStored) : FileBrief :=
  {| fb_id := f_id f; fb_project := f_project f; fb_name := f_name f;
     fb_checksum := f_checksum f; fb_last_modified := f_last_modified f;
     fb_open := f_open f |}.

Record ProjectBrief := mkProjectBrief {
  pb_id : string;
  pb_name : string;
  pb_last_modified : Z
}.

Definition mkProjectBrief_of (p : ProjectStored) : ProjectBrief :=
  {| pb_id := p_id p; pb_name := p_name p;
     pb_last_modified := p_last_modified p |}.

(** ** Interface: change-log entries *)

Record FileRef := mkFileRef { ref_file : string; ref_project : string }.

(** [interface ChangeLog].  The type is a string at run time: [applyChanges]
    has a branch for a type that is none of the three. *)
Record ChangeLog := mkChangeLog {
  cl_id : option N;
  cl_type : string;
  cl_contents : option string;
  cl_file : FileRef
}.

Definition with_id (k : N) (c : ChangeLog) : ChangeLog :=
  {| cl_id := Some k; cl_type := cl_type c; cl_contents := cl_contents c;
     cl_file := cl_file c |}.

Definition with_contents (s : option string) (c : ChangeLog) : ChangeLog :=
  {| cl_id := cl_id c; cl_type := cl_type c; cl_contents := s;
     cl_file := cl_file c |}.

(** ** The database *)

(** The [changeLogs] object store: rows in ascending key order and the key
    generator ("++id").  The stored object carries its key in [id]. *)
Record LogTable := mkLogTable {
  rows : list (N * ChangeLog);
  keygen : N
}.

Record StorageDB := mkStorageDB {
  files : gmap string FileStored;
  projects : gmap string ProjectStored;
  settings : gmap N SettingsStored;
  changeLogs : LogTable
}.

Definition set_files (g : gmap string FileStored -> gmap string FileStored)
    (d : StorageDB) : StorageDB :=
  {| files := g (files d); projects := projects d; settings := settings d;
     changeLogs := changeLogs d |}.

Definition set_projects
    (g : gmap string ProjectStored -> gmap string ProjectStored)
    (d : StorageDB) : StorageDB :=
  {| files := files d; projects := g (projects d); settings := settings d;
     changeLogs := changeLogs d |}.

Definition set_changeLogs (g : LogTable -> LogTable) (d : StorageDB)
    : StorageDB :=
  {| files := files d; projects := projects d; settings := settings d;
     changeLogs := g (changeLogs d) |}.

(** The world of a call: the database and the number of clock reads so far. *)
Record World := mkWorld { db : StorageDB; ticks : nat }.

(** ** Errors and the promise monad *)

(** What the class and the libraries it calls throw.  The three
    [LocalStorageError]s are told apart by their message. *)
Inductive Error :=
| FileDoesNotExist (fid : string)          (* file "fid" does not exist *)
| FileAlreadyExists (pid name : string)    (* file "pid" "name" already exists *)
| ProjectDoesNotExist (pid : string)       (* project "pid" doesn't exist *)
| ConstraintError                          (* Dexie: add on a key in use *)
| UnknownChange (c : ChangeLog)            (* applyChanges: unknown change *)
| InvalidCharacterError.                   (* window.atob *)

(** The taxonomy of the specification. *)
Definition is_NotFound (e : Error) : bool :=
  match e with
  | FileDoesNotExist _ | ProjectDoesNotExist _ => true
  | _ => false
  end.

Definition is_AlreadyExists (e : Error) : bool :=
  match e with
  | FileAlreadyExists _ _ => true
  | _ => false
  end.

Inductive Result (A : Type) :=
| Ok (a : A)
| Throw (e : Error).
Arguments Ok {A} a.
Arguments Throw {A} e.

Definition Promise (A : Type) : Type := World -> Result A * World.

Definition resolve {A} (a : A) : Promise A := fun w => (Ok a, w).

Definition throw {A} (e : Error) : Promise A := fun w => (Throw e, w).

Definition await {A B} (m : Promise A) (k : A -> Promise B) : Promise B :=
  fun w =>
    match m w with
    | (Ok a, w') => k a w'
    | (Throw e, w') => (Throw e, w')
    end.

Declare Scope promise_scope.
Delimit Scope promise_scope with promise.
Notation "'let*' x := m 'in' k" := (await m (fun x => k))
  (at level 10, x name, m at level 100, k at level 200) : promise_scope.
Notation "m >> k" := (await m (fun _ => k))
  (at level 100, k at level 200, right associativity) : promise_scope.
Open Scope promise_scope.

Definition gets {A} (g : StorageDB -> A) : Promise A :=
  fun w => (Ok (g (db w)), w).

Definition modify (g : StorageDB -> StorageDB) : Promise unit :=
  fun w => (Ok tt, {| db := g (db w); ticks := ticks w |}).

(** [db.transaction("rw", tbs, body)]: the writes of [body] are committed
    when it returns and dropped when it throws.  A transaction opened inside
    another one joins it; no caller in the class catches an exception, so the
    failure of an inner scope always reaches the outermost one, which drops
    every write of the batch. *)
Definition transaction {A} (body : Promise A) : Promise A :=
  fun w =>
    match body w with
    | (Ok a, w') => (Ok a, w')
    | (Throw e, w') => (Throw e, {| db := db w; ticks := ticks w' |})
    end.

(** [for (const x of xs) { await body(x); }] *)
Fixpoint for_of {A} (xs : list A) (body : A -> Promise unit) : Promise unit :=
  match xs with
  | [] => resolve tt
  | x :: rest => body x >> for_of rest body
  end.

(** ** Dexie tables *)

(** [changeLogs.put(change)]: a change without [id] takes the next generated
    key; a change with an [id] is stored under it (replacing the row that has
    it) and pushes the generator past it. *)
Fixpoint insert_row (k : N) (c : ChangeLog) (l : list (N * ChangeLog))
    : list (N * ChangeLog) :=
  match l with
  | [] => [(k, c)]
  | (k', c') :: rest =>
      if (k <? k')%N then (k, c) :: l
      else if (k =? k')%N then (k, c) :: rest
      else (k', c') :: insert_row k c rest
  end.

Definition put_row (c : ChangeLog) (t : LogTable) : N * LogTable :=
  match cl_id c with
  | None =>
      let k := keygen t in
      (k, {| rows := rows t ++ [(k, with_id k c)]; keygen := (k + 1)%N |})
  | Some k =>
      (k, {| rows := insert_row k (with_id k c) (rows t);
             keygen := N.max (keygen t) (k + 1) |})
  end.

Definition delete_row (k : N) (t : LogTable) : LogTable :=
  {| rows := filter (fun r => r.1 ≠ k) (rows t); keygen := keygen t |}.

Definition clear_rows (t : LogTable) : LogTable :=
  {| rows := []; keygen := keygen t |}.

(** [changeLogs.orderBy("id").reverse()] *)
Definition newest_first (t : LogTable) : list ChangeLog :=
  reverse ((fun r => with_id r.1 r.2) <$> rows t).

Definition changeLogs_put (c : ChangeLog) : Promise N :=
  fun w =>
    let r := put_row c (changeLogs (db w)) in
    (Ok r.1, {| db := set_changeLogs (fun _ => r.2) (db w); ticks := ticks w |}).

(** [table.add(obj)]: rejected with a ConstraintError when the key is used. *)
Definition files_add (f : FileStored) : Promise unit :=
  let* old := gets (fun d => files d !! f_id f) in
  match old with
  | Some _ => throw ConstraintError
  | None => modify (set_files (insert (f_id f) f))
  end.

Definition projects_add (p : ProjectStored) : Promise unit :=
  let* old := gets (fun d => projects d !! p_id p) in
  match old with
  | Some _ => throw ConstraintError
  | None => modify (set_projects (insert (p_id p) p))
  end.

(** [table.update(key, changes)]: changes the record under [key] when there
    is one and does nothing otherwise. *)
Definition files_update (fid : string) (g : FileStored -> FileStored)
    : Promise unit :=
  modify (set_files (alter g fid)).

Definition projects_update (pid : string)
    (g : ProjectStored -> ProjectStored) : Promise unit :=
  modify (set_projects (alter g pid)).

(** [files.where({name, project}).count()] *)
Definition files_where_count (name pid : string) : Promise nat :=
  gets (fun d =>
    size (filter (fun kv => f_name kv.2 = name ∧ f_project kv.2 = pid)
                 (files d))).

(** [files.where("project").equals(pid).delete()] *)
Definition files_where_project_delete (pid : string) : Promise unit :=
  modify (set_files (filter (fun kv => f_project kv.2 ≠ pid))).

(** ** The regular expression of [newFile]

    The pattern reads, anchored at the start of the string: the text "data:";
    an optional group 1 of characters other than a semicolon; optionally a
    semicolon not followed by "base64" and a group 2 of characters other than
    a semicolon; optionally a semicolon and group 3, the text "base64"; a
    comma; group 4, the rest of the line.  It is matched the way a
    backtracking engine does: a greedy group is tried from its longest
    candidate to its shortest, an optional group is tried before it is
    skipped.  A character is a code unit below 256. *)

Record RegExpMatch := mkRegExpMatch {
  rm1 : option string;   (* the mime type *)
  rm2 : option string;   (* a parameter other than base64 *)
  rm3 : option string;   (* "base64" *)
  rm4 : string           (* the payload *)
}.

Definition is_semicolon (c : ascii) : bool := Ascii.eqb c ";"%char.

(** [.] matches anything but a line terminator. *)
Definition is_line_terminator (c : ascii) : bool :=
  Ascii.eqb c "010"%char || Ascii.eqb c "013"%char.

(** Group 4 at the end of the expression: the rest of the line. *)
Fixpoint dot_star (s : string) : string :=
  match s with
  | EmptyString => EmptyString
  | String c s' => if is_line_terminator c then EmptyString
                   else String c (dot_star s')
  end.

Fixpoint strip_prefix (p s : string) : option string :=
  match p, s with
  | EmptyString, _ => Some s
  | String a p', String b s' =>
      if Ascii.eqb a b then strip_prefix p' s' else None
  | String _ _, EmptyString => None
  end.

(** A greedy run of characters other than a semicolon, followed by the
    continuation [k]: the longest run first.  [acc] is the run matched so
    far, reversed. *)
Fixpoint not_semicolon_star {R} (acc : list ascii) (s : string)
    (k : string -> string -> option R) : option R :=
  let here := k (string_of_list_ascii (rev acc)) s in
  match s with
  | EmptyString => here
  | String c s' =>
      if is_semicolon c then here
      else match not_semicolon_star (c :: acc) s' k with
           | Some r => Some r
           | None => here
           end
  end.

(** A group that matched the empty string under [?] does not take part in
    the match. *)
Definition captured (s : string) : option string :=
  match s with EmptyString => None | _ => Some s end.

(** The optional ";base64", the comma and the payload. *)
Definition match_base64_payload (s : string)
    : option (option string * string) :=
  match strip_prefix ";base64," s with
  | Some r => Some (Some "base64", dot_star r)
  | None =>
      match strip_prefix "," s with
      | Some r => Some (None, dot_star r)
      | None => None
      end
  end.

(** The optional parameter (a semicolon not followed by "base64", then
    group 2) and what follows it. *)
Definition match_param (s : string)
    : option (option string * option string * string) :=
  let skip :=
    match match_base64_payload s with
    | Some (g3, g4) => Some (None, g3, g4)
    | None => None
    end in
  match strip_prefix ";" s with
  | Some r =>
      match strip_prefix "base64" r with
      | Some _ => skip
      | None =>
          match not_semicolon_star [] r (fun g2 rest =>
                  match match_base64_payload rest with
                  | Some (g3, g4) => Some (Some g2, g3, g4)
                  | None => None
                  end) with
          | Some m => Some m
          | None => skip
          end
      end
  | None => skip
  end.

Definition data_uri_match (contents : string) : option RegExpMatch :=
  match strip_prefix "data:" contents with
  | None => None
  | Some s =>
      not_semicolon_star [] s (fun g1 rest =>
        match match_param rest with
        | Some (g2, g3, g4) =>
            Some {| rm1 := captured g1; rm2 := g2; rm3 := g3; rm4 := g4 |}
        | None => None
        end)
  end.

Example data_uri_match_base64 :
  data_uri_match "data:image/png;base64,aGk=" =
  Some {| rm1 := Some "image/png"; rm2 := None; rm3 := Some "base64";
          rm4 := "aGk=" |}.
Proof. reflexivity. Qed.

Example data_uri_match_charset :
  data_uri_match "data:text/plain;charset=utf-8,a,b" =
  Some {| rm1 := Some "text/plain"; rm2 := Some "charset=utf-8,a";
          rm3 := None; rm4 := "b" |}.
Proof. reflexivity. Qed.

Example data_uri_match_plain :
  data_uri_match "int main(){}" = None.
Proof. reflexivity. Qed.

(** A string or [undefined] used as a condition. *)
Definition defined {A} (o : option A) : bool :=
  match o with Some _ => true | None => false end.

(** ** Plain objects used as maps

    [runs] is a plain object.  A [gmap] holds its own properties; reads and
    writes by name also see [Object.prototype]. *)

(** The members of [Object.prototype] in a browser. *)
Definition Object_prototype_members : list string :=
  ["constructor"; "__defineGetter__"; "__defineSetter__"; "hasOwnProperty";
   "__lookupGetter__"; "__lookupSetter__"; "isPrototypeOf";
   "propertyIsEnumerable"; "toString"; "valueOf"; "__proto__";
   "toLocaleString"].

Definition on_Object_prototype (name : string) : bool :=
  existsb (String.eqb name) Object_prototype_members.

(** What [getFileToRun] returns: a file name, false, or the member of
    [Object.prototype] of that name. *)
Inductive RunFile :=
| RunName (name : string)
| RunFalse
| RunInherited (member : string).

(** [runs[question] || false] *)
Definition read_run (runs : gmap string string) (question : string)
    : RunFile :=
  match runs !! question with
  | Some "" => RunFalse
  | Some name => RunName name
  | None => if on_Object_prototype question then RunInherited question
            else RunFalse
  end.

(** [runs[question] = filename] for a string [filename]: an own property is
    set or created, except that without an own property "__proto__" the
    assignment to that name runs the setter of [Object.prototype], which
    ignores a string. *)
Definition assign_run (question filename : string)
    (runs : gmap string string) : gmap string string :=
  if (question =? "__proto__")%string && negb (defined (runs !! question))
  then runs
  else <[question := filename]> runs.

(** ** The class [LocalStorage] *)

(** An object is truthy: the tests [! dbProj] in [deleteFile] and
    [! project] in [newFile] are applied to the result of [getProject]. *)
Definition truthy_object {A} (o : A) : bool := true.

Definition console_warn : Promise unit := resolve tt.


Section LocalStorage.

(** [md5(s)] of the md5 package: the digest of [s] in hexadecimal. *)
Variable md5 : string -> string.
(** [Date.now()] at the n-th read of the clock. *)
Variable Date_now_at : nat -> Z.
(** [window.atob]; [None] when it throws on a malformed payload. *)
Variable atob : string -> option string.

Definition Date_now : Promise Z :=
  fun w => (Ok (Date_now_at (ticks w)),
            {| db := db w; ticks := S (ticks w) |}).

Definition readFile (fid : string) : Promise FileStored :=
  transaction (
    let* file := gets (fun d => files d !! fid) in
    match file with
    | None => throw (FileDoesNotExist fid)
    | Some file => resolve (File file)
    end).

Definition getProject (pid : string) : Promise ProjectStored :=
  transaction (
    let* p := gets (fun d => projects d !! pid) in
    match p with
    | None => throw (ProjectDoesNotExist pid)
    | Some p => resolve (Project p)
    end).

(** *** The change log *)

Definition getChangeLogs : Promise (list ChangeLog) :=
  transaction (gets (fun d => newest_first (changeLogs d))).

Definition topChangeLog : Promise (option ChangeLog) :=
  transaction (gets (fun d => head (newest_first (changeLogs d)))).

Definition popChangeLog : Promise (option ChangeLog) :=
  transaction (
    let* top := topChangeLog in
    match top with
    | Some top =>
        match cl_id top with
        | Some k =>
            if (k =? 0)%N then resolve None
            else modify (set_changeLogs (delete_row k)) >>
                 resolve (Some top)
        | None => resolve None
        end
    | None => resolve None
    end).

(** The assignment [top.contents = change.contents] changes the object read
    by [topChangeLog], which is stored nowhere afterwards. *)
Definition pushChangeLog (change : ChangeLog) : Promise N :=
  let* top := topChangeLog in
  transaction (
    (match top with
     | Some top =>
         if (cl_type change =? "editFile")%string
            && (cl_type top =? "editFile")%string
         then popChangeLog >>
              let top := with_contents (cl_contents change) top in
              resolve tt
         else resolve tt
     | None => resolve tt
     end) >>
    changeLogs_put change).

Definition countChangeLogs : Promise nat :=
  transaction (gets (fun d => length (rows (changeLogs d)))).

Definition clearChangeLogs : Promise unit :=
  transaction (modify (set_changeLogs clear_rows)).

(** *** Files *)

Definition writeFile (fid : string) (contents : option string)
    : Promise unit :=
  let checksum := match contents with None => "" | Some c => md5 c end in
  transaction (
    let* file := readFile fid in
    pushChangeLog {| cl_id := None; cl_type := "editFile";
                     cl_file := {| ref_file := f_name file;
                                   ref_project := f_project file |};
                     cl_contents := contents |} >>
    let* now := Date_now in
    files_update fid (fun f =>
      {| f_id := f_id f; f_project := f_project f; f_name := f_name f;
         f_contents := contents; f_checksum := checksum;
         f_last_modified := now; f_open := f_open f |})).

Definition prune_runs (id : string) (p : ProjectStored) : ProjectStored :=
  {| p_id := p_id p; p_name := p_name p;
     p_runs := filter (fun qv => qv.2 ≠ id) (p_runs p);
     p_last_modified := p_last_modified p;
     p_open_tabs := p_open_tabs p |}.

Definition deleteFile (id : string) : Promise unit :=
  transaction (
    let* file := readFile id in
    modify (set_files (delete id)) >>
    pushChangeLog {| cl_id := None; cl_type := "deleteFile";
                     cl_file := {| ref_file := f_name file;
                                   ref_project := f_project file |};
                     cl_contents := None |} >>
    (* also remove from run files *)
    let* dbProj := getProject (f_project file) in
    if negb (truthy_object dbProj) then console_warn
    else
      let dbProj := prune_runs id dbProj in
      projects_update (f_project file) (fun _ => dbProj)).

Definition renameFile (fid newName : string) : Promise unit :=
  transaction (
    let* file := readFile fid in
    files_update fid (fun f =>
      {| f_id := f_id f; f_project := f_project f; f_name := newName;
         f_contents := f_contents f; f_checksum := f_checksum f;
         f_last_modified := f_last_modified f; f_open := f_open f |}) >>
    pushChangeLog {| cl_id := None; cl_type := "newFile";
                     cl_contents := f_contents file;
                     cl_file := {| ref_file := newName;
                                   ref_project := f_project file |} |} >>
    pushChangeLog {| cl_id := None; cl_type := "deleteFile";
                     cl_contents := None;
                     cl_file := {| ref_file := f_name file;
                                   ref_project := f_project file |} |} >>
    resolve tt).

(** [p.runs[question] || false].  [runs] is a plain object: a question that
    is not a key of its own is looked up on [Object.prototype], whose members
    are functions, or the prototype itself for "__proto__", all truthy.  The
    empty name is falsy. *)
Definition getFileToRun (proj question : string) : Promise RunFile :=
  transaction (
    let* p := getProject proj in
    resolve (read_run (p_runs p) question)).

(** [current.runs[question] = filename], then the update of [runs]. *)
Definition setFileToRun (pid question filename : string) : Promise unit :=
  transaction (
    let* current := getProject pid in
    let runs := assign_run question filename (p_runs current) in
    projects_update pid (fun p =>
      {| p_id := p_id p; p_name := p_name p; p_runs := runs;
         p_last_modified := p_last_modified p;
         p_open_tabs := p_open_tabs p |})).

(** The payload of a data URI is decoded when [base64] is set and the
    expression matches with group 3, or with "base64" as group 1. *)
Definition decode_contents (contents : string) (base64 : bool)
    : Promise string :=
  let rmatch := data_uri_match contents in
  match rmatch with
  | Some m =>
      if base64 then
        if defined (rm3 m) || bool_decide (rm1 m = Some "base64")
        then match atob (rm4 m) with
             | Some s => resolve s
             | None => throw InvalidCharacterError
             end
        else resolve contents
      else resolve contents
  | None => resolve contents
  end.

(** [contents] and [base64] default to the empty string and to false. *)
Definition newFile (pid name : string) (contents : option string)
    (base64 : bool) : Promise FileBrief :=
  let contents := default "" contents in
  let* contents := decode_contents contents base64 in
  let checksum := md5 contents in
  transaction (
    let fid := md5 (pid +:+ name) in
    let* exist := files_where_count name pid in
    if (0 <? exist)%nat then throw (FileAlreadyExists pid name)
    else
      let* project := getProject pid in
      if negb (truthy_object project) then throw (ProjectDoesNotExist pid)
      else
        let* now := Date_now in
        files_add {| f_id := fid; f_project := pid; f_name := name;
                     f_contents := Some contents; f_checksum := checksum;
                     f_last_modified := now; f_open := 0 |} >>
        pushChangeLog {| cl_id := None; cl_type := "newFile";
                         cl_contents := Some contents;
                         cl_file := {| ref_file := name;
                                       ref_project := pid |} |} >>
        let* result := readFile fid in
        resolve (mkBrief result)).

(** *** Projects *)

Definition newProject (name : string) : Promise ProjectBrief :=
  let pid := md5 name in
  transaction (
    let* now := Date_now in
    projects_add {| p_id := pid; p_name := name; p_runs := ∅;
                    p_last_modified := now; p_open_tabs := ∅ |} >>
    let* proj := getProject pid in
    resolve (mkProjectBrief_of proj)).

Definition deleteProject (pid : string) : Promise unit :=
  transaction (
    modify (set_projects (delete pid)) >>
    files_where_project_delete pid).

(** *** Open tabs *)

Definition set_open (o : N) (f : FileStored) : FileStored :=
  {| f_id := f_id f; f_project := f_project f; f_name := f_name f;
     f_contents := f_contents f; f_checksum := f_checksum f;
     f_last_modified := f_last_modified f; f_open := o |}.

Definition addOpenTab (proj question fid : string) : Promise unit :=
  transaction (files_update fid (set_open 1)).

Definition removeOpenTab (proj question fid : string) : Promise unit :=
  transaction (files_update fid (set_open 0)).

(** *** Reconciliation *)

Definition applyChange (change : ChangeLog) : Promise unit :=
  let pid := md5 (ref_project (cl_file change)) in
  let fid := md5 (pid +:+ ref_file (cl_file change)) in
  if (cl_type change =? "deleteFile")%string then deleteFile fid
  else if (cl_type change =? "editFile")%string
  then writeFile fid (cl_contents change)
  else if (cl_type change =? "newFile")%string
  then newFile pid (ref_file (cl_file change)) (cl_contents change) false
       >> resolve tt
  else throw (UnknownChange change).

(** The body of the transaction of [applyChanges].  The listener it adds for
    "abort" writes a warning to the console. *)
Definition applyChanges_body (changeLogs : list ChangeLog)
    (newProjects deletedProjects : list string) : Promise unit :=
  for_of newProjects (fun proj => newProject proj >> resolve tt) >>
  for_of changeLogs applyChange >>
  for_of deletedProjects deleteProject >>
  clearChangeLogs.

Definition applyChanges (changeLogs : list ChangeLog)
    (newProjects deletedProjects : list string) : Promise unit :=
  transaction (applyChanges_body changeLogs newProjects deletedProjects).

End LocalStorage.

(** * Properties *)

(** ** Running promises *)

Definition set_db (g : StorageDB -> StorageDB) (w : World) : World :=
  {| db := g (db w); ticks := ticks w |}.

Definition tick (w : World) : World :=
  {| db := db w; ticks := S (ticks w) |}.

Lemma world_eta w : {| db := db w; ticks := ticks w |} = w.
Proof. by destruct w. Qed.

Lemma db_eta d :
  {| files := files d; projects := projects d; settings := settings d;
     changeLogs := changeLogs d |} = d.
Proof. by destruct d. Qed.

Lemma await_ok {A B} (m : Promise A) (k : A -> Promise B) w a w' :
  m w = (Ok a, w') -> await m k w = k a w'.
Proof. intros H. unfold await. by rewrite H. Qed.

Lemma await_throw {A B} (m : Promise A) (k : A -> Promise B) w e w' :
  m w = (Throw e, w') -> await m k w = (Throw e, w').
Proof. intros H. unfold await. by rewrite H. Qed.

Lemma transaction_ok {A} (body : Promise A) w a w' :
  body w = (Ok a, w') -> transaction body w = (Ok a, w').
Proof. intros H. unfold transaction. by rewrite H. Qed.

Lemma transaction_throw {A} (body : Promise A) w e w' :
  body w = (Throw e, w') ->
  transaction body w = (Throw e, {| db := db w; ticks := ticks w' |}).
Proof. intros H. unfold transaction. by rewrite H. Qed.

(** A transaction that fails leaves the database as it found it. *)
Lemma transaction_rollback {A} (body : Promise A) w e w' :
  transaction body w = (Throw e, w') -> db w' = db w.
Proof.
  unfold transaction. destruct (body w) as [[a|e'] w'']; [done|].
  by intros [= _ <-].
Qed.

Lemma readFile_ok w fid f :
  files (db w) !! fid = Some f -> readFile fid w = (Ok f, w).
Proof.
  intros H. unfold readFile. apply transaction_ok.
  erewrite await_ok by reflexivity. simpl. by rewrite H.
Qed.

Lemma readFile_missing w fid :
  files (db w) !! fid = None ->
  readFile fid w = (Throw (FileDoesNotExist fid), w).
Proof.
  intros H. unfold readFile.
  erewrite transaction_throw; [by rewrite world_eta|].
  erewrite await_ok by reflexivity. simpl. by rewrite H.
Qed.

Lemma getProject_ok w pid p :
  projects (db w) !! pid = Some p -> getProject pid w = (Ok p, w).
Proof.
  intros H. unfold getProject. apply transaction_ok.
  erewrite await_ok by reflexivity. simpl. by rewrite H.
Qed.

Lemma getProject_missing w pid :
  projects (db w) !! pid = None ->
  getProject pid w = (Throw (ProjectDoesNotExist pid), w).
Proof.
  intros H. unfold getProject.
  erewrite transaction_throw; [by rewrite world_eta|].
  erewrite await_ok by reflexivity. simpl. by rewrite H.
Qed.

(** ** The change log as a function of the table *)

(** The entry [topChangeLog] reads: the row with the largest key. *)
Definition top_row (t : LogTable) : option ChangeLog :=
  head (newest_first t).

(** The table after [popChangeLog]. *)
Definition pop_log (t : LogTable) : LogTable :=
  match top_row t with
  | Some top =>
      match cl_id top with
      | Some k => if (k =? 0)%N then t else delete_row k t
      | None => t
      end
  | None => t
  end.

(** The table [pushChangeLog] stores [change] in: the top entry is popped
    when it and [change] are both of type editFile. *)
Definition coalesce (change : ChangeLog) (t : LogTable) : LogTable :=
  match top_row t with
  | Some top =>
      if (cl_type change =? "editFile")%string
         && (cl_type top =? "editFile")%string
      then pop_log t else t
  | None => t
  end.

Definition push_log (change : ChangeLog) (t : LogTable) : N * LogTable :=
  put_row change (coalesce change t).

Lemma topChangeLog_run w :
  topChangeLog w = (Ok (top_row (changeLogs (db w))), w).
Proof. done. Qed.

Lemma popChangeLog_run w :
  exists r, popChangeLog w =
    (Ok r, set_db (set_changeLogs pop_log) w).
Proof.
  destruct w as [[fs ps ss t] n].
  unfold popChangeLog, transaction, await, set_db, set_changeLogs, pop_log.
  rewrite topChangeLog_run. cbn [db changeLogs files projects settings ticks].
  destruct (top_row t) as [top|]; [|by eexists].
  destruct (cl_id top) as [k|]; [|by eexists].
  destruct (k =? 0)%N; by eexists.
Qed.

Lemma pushChangeLog_run change w :
  pushChangeLog change w =
    (Ok (push_log change (changeLogs (db w))).1,
     set_db (set_changeLogs
               (fun t => (push_log change t).2)) w).
Proof.
  unfold pushChangeLog. erewrite await_ok by apply topChangeLog_run.
  destruct (popChangeLog_run w) as [r Hr]. revert Hr.
  destruct w as [[fs ps ss t] n].
  unfold push_log, coalesce, set_db, set_changeLogs, transaction, await.
  cbn [db changeLogs files projects settings ticks]. intros Hr.
  destruct (top_row t) as [top|]; [|done].
  destruct ((cl_type change =? "editFile")%string
            && (cl_type top =? "editFile")%string); [|done].
  by rewrite Hr.
Qed.

(** ** The invariant of the [changeLogs] object store

    Rows are kept in ascending key order, keys are positive and below the
    key generator.  An IndexedDB key generator starts at 1 and only grows. *)
Definition key_lt (a b : N * ChangeLog) : Prop := (a.1 < b.1)%N.

Definition log_wf (t : LogTable) : Prop :=
  StronglySorted key_lt (rows t) ∧
  Forall (fun r => (0 < r.1 < keygen t)%N) (rows t) ∧
  (0 < keygen t)%N.

Lemma filter_all {A} (P : A -> Prop) `{!∀ x, Decision (P x)} (l : list A) :
  Forall P l -> filter P l = l.
Proof.
  induction 1 as [|x l Hx _ IH]; [done|].
  rewrite filter_cons. case_decide; [by rewrite IH|done].
Qed.

Lemma top_row_snoc base k e g :
  top_row {| rows := base ++ [(k, e)]; keygen := g |} = Some (with_id k e).
Proof.
  unfold top_row, newest_first. cbn [rows].
  by rewrite fmap_snoc, reverse_snoc.
Qed.

(** Popping a well-formed table removes its last row and nothing else. *)
Lemma pop_log_snoc base k e g :
  log_wf {| rows := base ++ [(k, e)]; keygen := g |} ->
  pop_log {| rows := base ++ [(k, e)]; keygen := g |} =
  {| rows := base; keygen := g |}.
Proof.
  intros (Hs & Hk & _). cbn [rows keygen] in *.
  unfold pop_log. rewrite top_row_snoc. cbn [cl_id with_id].
  apply Forall_app in Hk as [_ Hk]. apply Forall_inv in Hk.
  cbn [fst] in Hk.
  destruct (N.eqb_spec k 0) as [->|_]; [lia|].
  unfold delete_row. cbn [rows keygen]. f_equal.
  rewrite filter_app, filter_cons, filter_nil.
  case_decide as Hd; [done|]. rewrite app_nil_r.
  apply filter_all. apply Forall_forall. intros [k' e'] Hin. cbn [fst].
  pose proof (StronglySorted_app_1_elem_of _ _ _ _ _ Hs Hin
                (proj2 (list_elem_of_singleton _ _) eq_refl)) as Hlt.
  unfold key_lt in Hlt. cbn [fst] in Hlt. lia.
Qed.

(** A row stored under the key 0 by a put with that [id] is never popped:
    its [id] is falsy. *)
Example popChangeLog_key_zero :
  let c := {| cl_id := Some 0%N; cl_type := "editFile";
              cl_contents := None;
              cl_file := {| ref_file := "a"; ref_project := "p" |} |} in
  let t := (put_row c {| rows := []; keygen := 1 |}).2 in
  t = {| rows := [(0%N, c)]; keygen := 1 |} ∧ pop_log t = t.
Proof. split; reflexivity. Qed.

Lemma coalesce_other change t :
  cl_type change ≠ "editFile" -> coalesce change t = t.
Proof.
  intros Hne. unfold coalesce. destruct (top_row t); [|done].
  destruct (String.eqb_spec (cl_type change) "editFile"); done.
Qed.

Lemma coalesce_snoc_edit change base k e g :
  log_wf {| rows := base ++ [(k, e)]; keygen := g |} ->
  cl_type change = "editFile" -> cl_type e = "editFile" ->
  coalesce change {| rows := base ++ [(k, e)]; keygen := g |} =
  {| rows := base; keygen := g |}.
Proof.
  intros Hwf Hc He. unfold coalesce. rewrite top_row_snoc.
  cbn [cl_type with_id]. rewrite Hc, He. cbn.
  by apply pop_log_snoc.
Qed.

Lemma coalesce_snoc_keep change base k e g :
  cl_type e ≠ "editFile" ->
  coalesce change {| rows := base ++ [(k, e)]; keygen := g |} =
  {| rows := base ++ [(k, e)]; keygen := g |}.
Proof.
  intros He. unfold coalesce. rewrite top_row_snoc. cbn [cl_type with_id].
  destruct (String.eqb_spec (cl_type e) "editFile"); [done|].
  by rewrite andb_false_r.
Qed.

Lemma put_row_fresh change t :
  cl_id change = None ->
  put_row change t =
  (keygen t,
   {| rows := rows t ++ [(keygen t, with_id (keygen t) change)];
      keygen := (keygen t + 1)%N |}).
Proof. intros H. unfold put_row. by rewrite H. Qed.

(** What [coalesce] leaves is a prefix of the rows, under the same
    generator. *)
Lemma coalesce_rows change t :
  keygen (coalesce change t) = keygen t ∧
  ∀ r, r ∈ rows (coalesce change t) -> r ∈ rows t.
Proof.
  unfold coalesce, pop_log.
  destruct (top_row t) as [top|]; [|done].
  destruct (_ && _); [|done].
  destruct (cl_id top) as [k|]; [|done].
  destruct (k =? 0)%N; [done|].
  split; [done|]. intros r. unfold delete_row. cbn [rows].
  rewrite list_elem_of_filter. tauto.
Qed.

Lemma delete_row_wf k t : log_wf t -> log_wf (delete_row k t).
Proof.
  intros (Hs & Hk & Hg). split_and!; unfold delete_row; cbn [rows keygen].
  - clear Hk. induction Hs as [|r l Hs IH Hr]; [constructor|].
    rewrite filter_cons. case_decide; [|done].
    constructor; [done|]. apply Forall_forall. intros x Hx.
    apply list_elem_of_filter in Hx as [_ Hx].
    by eapply Forall_forall in Hr.
  - apply Forall_forall. intros x Hx.
    apply list_elem_of_filter in Hx as [_ Hx].
    by eapply Forall_forall in Hk.
  - done.
Qed.

Lemma coalesce_wf change t : log_wf t -> log_wf (coalesce change t).
Proof.
  intros Hwf. unfold coalesce, pop_log.
  destruct (top_row t) as [top|]; [|done].
  destruct (_ && _); [|done].
  destruct (cl_id top) as [k|]; [|done].
  destruct (k =? 0)%N; [done|]. by apply delete_row_wf.
Qed.

(** The invariant is kept by every push of a change without [id], which is
    what all the methods of the class push. *)
Lemma push_log_wf change t :
  cl_id change = None -> log_wf t -> log_wf (push_log change t).2.
Proof.
  intros Hid Hwf. unfold push_log. rewrite put_row_fresh by done.
  cbn [snd]. apply (coalesce_wf change) in Hwf as (Hs & Hk & Hg).
  split_and!; cbn [rows keygen].
  - apply StronglySorted_app_2; [|done|repeat constructor].
    intros x1 x2 H1 ->%list_elem_of_singleton.
    eapply Forall_forall in Hk; [|done]. unfold key_lt. cbn [fst]. lia.
  - apply Forall_app. split.
    + eapply Forall_impl; [done|]. intros r ?. cbn beta in *. lia.
    + apply Forall_singleton. cbn [fst]. lia.
  - lia.
Qed.

(** ** Runs of the file and project methods *)

(** The database after [pushChangeLog change]. *)
Definition pushed (change : ChangeLog) (d : StorageDB) : StorageDB :=
  set_changeLogs (fun t => (push_log change t).2) d.

Definition edit_entry (f : FileStored) (contents : option string)
    : ChangeLog :=
  {| cl_id := None; cl_type := "editFile"; cl_contents := contents;
     cl_file := {| ref_file := f_name f; ref_project := f_project f |} |}.

Definition delete_entry (f : FileStored) : ChangeLog :=
  {| cl_id := None; cl_type := "deleteFile"; cl_contents := None;
     cl_file := {| ref_file := f_name f; ref_project := f_project f |} |}.

Definition new_entry (pid name : string) (contents : option string)
    : ChangeLog :=
  {| cl_id := None; cl_type := "newFile"; cl_contents := contents;
     cl_file := {| ref_file := name; ref_project := pid |} |}.

Definition renamed (newName : string) (f : FileStored) : FileStored :=
  {| f_id := f_id f; f_project := f_project f; f_name := newName;
     f_contents := f_contents f; f_checksum := f_checksum f;
     f_last_modified := f_last_modified f; f_open := f_open f |}.

Definition with_runs (runs : gmap string string) (p : ProjectStored)
    : ProjectStored :=
  {| p_id := p_id p; p_name := p_name p; p_runs := runs;
     p_last_modified := p_last_modified p; p_open_tabs := p_open_tabs p |}.

(** The number of records [newFile] counts before it adds one. *)
Definition named_in (name pid : string) (fs : gmap string FileStored) : nat :=
  size (filter (fun kv => f_name kv.2 = name ∧ f_project kv.2 = pid) fs).

Ltac step L := erewrite await_ok by (first [eapply L; eassumption | apply L]).

Lemma deleteFile_run w id f p :
  files (db w) !! id = Some f ->
  projects (db w) !! f_project f = Some p ->
  deleteFile id w =
  (Ok tt,
   set_db (fun d =>
     set_projects (alter (fun _ => prune_runs id p) (f_project f))
       (pushed (delete_entry f) (set_files (delete id) d))) w).
Proof.
  intros Hf Hp. unfold deleteFile. apply transaction_ok.
  step readFile_ok. erewrite await_ok by reflexivity.
  step pushChangeLog_run.
  erewrite await_ok by (apply getProject_ok; exact Hp).
  done.
Qed.

(** When the project of the file is gone [getProject] throws, so the test
    on its result is never reached and the transaction is aborted. *)
Lemma deleteFile_orphan w id f :
  files (db w) !! id = Some f ->
  projects (db w) !! f_project f = None ->
  deleteFile id w = (Throw (ProjectDoesNotExist (f_project f)), w).
Proof.
  intros Hf Hp. unfold deleteFile.
  erewrite transaction_throw; cycle 1.
  { step readFile_ok. erewrite await_ok by reflexivity.
    step pushChangeLog_run.
    erewrite await_throw by (apply getProject_missing; exact Hp).
    reflexivity. }
  by destruct w.
Qed.

Lemma deleteFile_missing w id :
  files (db w) !! id = None ->
  deleteFile id w = (Throw (FileDoesNotExist id), w).
Proof.
  intros Hf. unfold deleteFile.
  erewrite transaction_throw; [by rewrite world_eta|].
  erewrite await_throw by (by apply readFile_missing). done.
Qed.

Lemma renameFile_run w fid newName f :
  files (db w) !! fid = Some f ->
  renameFile fid newName w =
  (Ok tt,
   set_db (fun d =>
     pushed (delete_entry f)
       (pushed (new_entry (f_project f) newName (f_contents f))
          (set_files (alter (renamed newName) fid) d))) w).
Proof.
  intros Hf. unfold renameFile. apply transaction_ok.
  step readFile_ok. erewrite await_ok by reflexivity.
  step pushChangeLog_run. step pushChangeLog_run. done.
Qed.

Lemma renameFile_missing w fid newName :
  files (db w) !! fid = None ->
  renameFile fid newName w = (Throw (FileDoesNotExist fid), w).
Proof.
  intros Hf. unfold renameFile.
  erewrite transaction_throw; [by rewrite world_eta|].
  erewrite await_throw by (by apply readFile_missing). done.
Qed.

Lemma setFileToRun_run w pid question filename p :
  projects (db w) !! pid = Some p ->
  setFileToRun pid question filename w =
  (Ok tt,
   set_db (set_projects
     (alter (with_runs (assign_run question filename (p_runs p))) pid)) w).
Proof.
  intros Hp. unfold setFileToRun. apply transaction_ok.
  erewrite await_ok by (apply getProject_ok; exact Hp). done.
Qed.

Lemma setFileToRun_missing w pid question filename :
  projects (db w) !! pid = None ->
  setFileToRun pid question filename w =
  (Throw (ProjectDoesNotExist pid), w).
Proof.
  intros Hp. unfold setFileToRun.
  erewrite transaction_throw; [by rewrite world_eta|].
  erewrite await_throw by (by apply getProject_missing). done.
Qed.

Lemma deleteProject_run w pid :
  deleteProject pid w =
  (Ok tt,
   set_db (fun d =>
     set_files (filter (fun kv => f_project kv.2 ≠ pid))
       (set_projects (delete pid) d)) w).
Proof. done. Qed.

Lemma clearChangeLogs_run w :
  clearChangeLogs w = (Ok tt, set_db (set_changeLogs clear_rows) w).
Proof. done. Qed.

Lemma addOpenTab_run w proj question fid :
  addOpenTab proj question fid w =
  (Ok tt, set_db (set_files (alter (set_open 1) fid)) w).
Proof. done. Qed.

Lemma removeOpenTab_run w proj question fid :
  removeOpenTab proj question fid w =
  (Ok tt, set_db (set_files (alter (set_open 0) fid)) w).
Proof. done. Qed.

Section Runs.

Variable md5 : string -> string.
Variable Date_now_at : nat -> Z.
Variable atob : string -> option string.

Definition checksum_of (contents : option string) : string :=
  match contents with None => "" | Some c => md5 c end.

Definition written (contents : option string) (now : Z) (f : FileStored)
    : FileStored :=
  {| f_id := f_id f; f_project := f_project f; f_name := f_name f;
     f_contents := contents; f_checksum := checksum_of contents;
     f_last_modified := now; f_open := f_open f |}.

Definition created (pid name contents : string) (now : Z) : FileStored :=
  {| f_id := md5 (pid +:+ name); f_project := pid; f_name := name;
     f_contents := Some contents; f_checksum := md5 contents;
     f_last_modified := now; f_open := 0 |}.

Definition fresh_project (name : string) (now : Z) : ProjectStored :=
  {| p_id := md5 name; p_name := name; p_runs := ∅;
     p_last_modified := now; p_open_tabs := ∅ |}.

Lemma writeFile_run w fid contents f :
  files (db w) !! fid = Some f ->
  writeFile md5 Date_now_at fid contents w =
  (Ok tt,
   {| db := set_files
              (alter (written contents (Date_now_at (ticks w))) fid)
              (pushed (edit_entry f contents) (db w));
      ticks := S (ticks w) |}).
Proof.
  intros Hf. unfold writeFile. apply transaction_ok.
  step readFile_ok. step pushChangeLog_run. done.
Qed.

Lemma writeFile_missing w fid contents :
  files (db w) !! fid = None ->
  writeFile md5 Date_now_at fid contents w =
  (Throw (FileDoesNotExist fid), w).
Proof.
  intros Hf. unfold writeFile.
  erewrite transaction_throw; [by rewrite world_eta|].
  erewrite await_throw by (by apply readFile_missing). done.
Qed.

Lemma decode_contents_plain contents w :
  decode_contents atob contents false w = (Ok contents, w).
Proof.
  unfold decode_contents. by destruct (data_uri_match contents).
Qed.

Lemma newProject_run w name :
  projects (db w) !! md5 name = None ->
  newProject md5 Date_now_at name w =
  (Ok (mkProjectBrief_of (fresh_project name (Date_now_at (ticks w)))),
   {| db := set_projects
              (insert (md5 name)
                 (fresh_project name (Date_now_at (ticks w)))) (db w);
      ticks := S (ticks w) |}).
Proof.
  intros Hp. unfold newProject. apply transaction_ok.
  erewrite await_ok by reflexivity.
  erewrite await_ok.
  2:{ unfold projects_add. erewrite await_ok by reflexivity.
      cbn [db p_id]. rewrite Hp. reflexivity. }
  erewrite await_ok; [reflexivity|].
  apply getProject_ok. cbn. apply lookup_insert_eq.
Qed.

Lemma newProject_exists w name p :
  projects (db w) !! md5 name = Some p ->
  newProject md5 Date_now_at name w = (Throw ConstraintError, tick w).
Proof.
  intros Hp. unfold newProject.
  erewrite transaction_throw; cycle 1.
  { erewrite await_ok by reflexivity.
    erewrite await_throw; [reflexivity|].
    unfold projects_add. erewrite await_ok by reflexivity.
    cbn [db p_id]. rewrite Hp. reflexivity. }
  reflexivity.
Qed.

Lemma files_where_count_run w name pid :
  files_where_count name pid w = (Ok (named_in name pid (files (db w))), w).
Proof. done. Qed.

(** Decoding reads no table and writes none. *)
Lemma decode_contents_world contents base64 w r w' :
  decode_contents atob contents base64 w = (r, w') -> w' = w.
Proof.
  unfold decode_contents.
  destruct (data_uri_match contents) as [m|]; [|by intros [= _ <-]].
  destruct base64; [|by intros [= _ <-]].
  destruct (_ || _); [|by intros [= _ <-]].
  destruct (atob (rm4 m)); by intros [= _ <-].
Qed.

Lemma newFile_undecodable w pid name contents base64 e :
  decode_contents atob (default "" contents) base64 w = (Throw e, w) ->
  newFile md5 Date_now_at atob pid name contents base64 w = (Throw e, w).
Proof. intros Hd. unfold newFile. by erewrite await_throw by exact Hd. Qed.

(** [newFile] when no record has the name in the project, the project
    exists and the derived id is free; [c] is the contents after
    decoding. *)
Lemma newFile_run w pid name contents base64 c p :
  decode_contents atob (default "" contents) base64 w = (Ok c, w) ->
  named_in name pid (files (db w)) = 0%nat ->
  projects (db w) !! pid = Some p ->
  files (db w) !! md5 (pid +:+ name) = None ->
  let f := created pid name c (Date_now_at (ticks w)) in
  newFile md5 Date_now_at atob pid name contents base64 w =
  (Ok (mkBrief f),
   {| db := pushed (new_entry pid name (Some c))
              (set_files (insert (md5 (pid +:+ name)) f) (db w));
      ticks := S (ticks w) |}).
Proof.
  intros Hd Hn Hp Hf f. unfold newFile.
  erewrite await_ok by exact Hd.
  apply transaction_ok.
  erewrite await_ok by apply files_where_count_run. rewrite Hn.
  cbn [Nat.ltb Nat.leb].
  erewrite await_ok by (apply getProject_ok; exact Hp).
  cbn [truthy_object negb].
  erewrite await_ok by reflexivity.
  erewrite await_ok.
  2:{ unfold files_add. erewrite await_ok by reflexivity.
      cbn [db f_id]. rewrite Hf. reflexivity. }
  step pushChangeLog_run.
  erewrite await_ok; [reflexivity|].
  apply readFile_ok. cbn. apply lookup_insert_eq.
Qed.

Lemma newFile_exists w pid name contents base64 c :
  decode_contents atob (default "" contents) base64 w = (Ok c, w) ->
  (0 < named_in name pid (files (db w)))%nat ->
  newFile md5 Date_now_at atob pid name contents base64 w =
  (Throw (FileAlreadyExists pid name), w).
Proof.
  intros Hd Hn. unfold newFile.
  erewrite await_ok by exact Hd.
  erewrite transaction_throw; cycle 1.
  { erewrite await_ok by apply files_where_count_run.
    apply Nat.ltb_lt in Hn. rewrite Hn. reflexivity. }
  by destruct w.
Qed.

Lemma newFile_no_project w pid name contents base64 c :
  decode_contents atob (default "" contents) base64 w = (Ok c, w) ->
  named_in name pid (files (db w)) = 0%nat ->
  projects (db w) !! pid = None ->
  newFile md5 Date_now_at atob pid name contents base64 w =
  (Throw (ProjectDoesNotExist pid), w).
Proof.
  intros Hd Hn Hp. unfold newFile.
  erewrite await_ok by exact Hd.
  erewrite transaction_throw; cycle 1.
  { erewrite await_ok by apply files_where_count_run. rewrite Hn.
    cbn [Nat.ltb Nat.leb].
    erewrite await_throw by (apply getProject_missing; exact Hp).
    reflexivity. }
  by destruct w.
Qed.

(** The derived id is in use although no record has the name: [files.add]
    is rejected.  This is the state a rename leaves behind. *)
Lemma newFile_key_in_use w pid name contents base64 c p g :
  decode_contents atob (default "" contents) base64 w = (Ok c, w) ->
  named_in name pid (files (db w)) = 0%nat ->
  projects (db w) !! pid = Some p ->
  files (db w) !! md5 (pid +:+ name) = Some g ->
  newFile md5 Date_now_at atob pid name contents base64 w =
  (Throw ConstraintError, tick w).
Proof.
  intros Hd Hn Hp Hf. unfold newFile.
  erewrite await_ok by exact Hd.
  erewrite transaction_throw; cycle 1.
  { erewrite await_ok by apply files_where_count_run. rewrite Hn.
    cbn [Nat.ltb Nat.leb].
    erewrite await_ok by (apply getProject_ok; exact Hp).
    cbn [truthy_object negb].
    erewrite await_ok by reflexivity.
    erewrite await_throw; [reflexivity|].
    unfold files_add. erewrite await_ok by reflexivity.
    cbn [db f_id]. rewrite Hf. reflexivity. }
  reflexivity.
Qed.

End Runs.

(** ** Worlds used by the examples *)

(** The digests of the strings that occur in the examples, as the md5
    package returns them. *)
Definition md5_table (s : string) : string :=
  if (s =? "A1")%string then "27f237e6b7f96587b6202ff3607ad88a"
  else if (s =? "27f237e6b7f96587b6202ff3607ad88aq1/main.c")%string
  then "fa3b66fcde8416f28a2ae7ad99705e4d"
  else if (s =? "27f237e6b7f96587b6202ff3607ad88aq1/util.c")%string
  then "441c1b0a05d844ec43f512c2eba790c0"
  else if (s =? "X")%string then "02129bb861061d1a052c592e2dc6b383"
  else if (s =? "Y")%string then "57cec4137b614c87cb4e24a3d003a3e0"
  else if (s =? "Z")%string then "21c2e59531c8710156d34a3c30ac81d5"
  else if (s =? "v1")%string then "6654c734ccab8f440ff0825eb443dc7f"
  else if (s =? "v2")%string then "1b267619c4812cc46ee281747884ca50"
  else "d41d8cd98f00b204e9800998ecf8427e".

Definition clock_ms (n : nat) : Z := 1500000000000 + Z.of_nat n.

Definition no_atob (s : string) : option string := None.

Definition pid_A1 : string := "27f237e6b7f96587b6202ff3607ad88a".
Definition fid_main : string := "fa3b66fcde8416f28a2ae7ad99705e4d".

(** A database just opened: four empty tables, generator at 1. *)
Definition empty_db : StorageDB :=
  {| files := ∅; projects := ∅; settings := ∅;
     changeLogs := {| rows := []; keygen := 1 |} |}.

Definition project_A1 : ProjectStored :=
  {| p_id := pid_A1; p_name := "A1"; p_runs := ∅;
     p_last_modified := 1500000000000; p_open_tabs := ∅ |}.

Definition file_main : FileStored :=
  {| f_id := fid_main; f_project := pid_A1; f_name := "q1/main.c";
     f_contents := Some "X";
     f_checksum := "02129bb861061d1a052c592e2dc6b383";
     f_last_modified := 1500000000001; f_open := 0 |}.

(** Project A1 without files. *)
Definition world_A1 : World :=
  {| db := {| files := ∅; projects := {[ pid_A1 := project_A1 ]};
              settings := ∅;
              changeLogs := {| rows := []; keygen := 1 |} |};
     ticks := 1 |}.

(** Project A1 with the file q1/main.c, as [newProject] and [newFile] leave
    them. *)
Definition world_main : World :=
  {| db := {| files := {[ fid_main := file_main ]};
              projects := {[ pid_A1 := project_A1 ]};
              settings := ∅;
              changeLogs :=
                {| rows := [(1%N, with_id 1 (new_entry pid_A1 "q1/main.c"
                                               (Some "X")))];
                   keygen := 2 |} |};
     ticks := 2 |}.

Example world_main_reached :
  (newProject md5_table clock_ms "A1" >>
   newFile md5_table clock_ms no_atob pid_A1 "q1/main.c" (Some "X") false)
    {| db := empty_db; ticks := 0 |}
  = (Ok (mkBrief file_main), world_main).
Proof. vm_compute. reflexivity. Qed.

Lemma log_wf_world_main : log_wf (changeLogs (db world_main)).
Proof.
  split_and!; cbn.
  - repeat constructor.
  - repeat constructor; cbn; lia.
  - lia.
Qed.

(** ** Open tabs *)

Section OpenTabs.

Variable md5 : string -> string.
Variable Date_now_at : nat -> Z.

(** C10.  When no file is stored under [fid], [addOpenTab] and
    [removeOpenTab] return normally and leave the world, hence every record
    of the four tables, as it was; [readFile], [writeFile] and [deleteFile]
    throw "file does not exist" on the same id. *)
Theorem open_tab_absent_file (w : World) (proj question fid : string)
    (contents : option string) :
  files (db w) !! fid = None ->
  addOpenTab proj question fid w = (Ok tt, w) ∧
  removeOpenTab proj question fid w = (Ok tt, w) ∧
  readFile fid w = (Throw (FileDoesNotExist fid), w) ∧
  writeFile md5 Date_now_at fid contents w =
    (Throw (FileDoesNotExist fid), w) ∧
  deleteFile fid w = (Throw (FileDoesNotExist fid), w) ∧
  is_NotFound (FileDoesNotExist fid) = true.
Proof.
  intros Hf. split_and!.
  - rewrite addOpenTab_run. unfold set_db, set_files.
    rewrite alter_id' by done. by rewrite db_eta, world_eta.
  - rewrite removeOpenTab_run. unfold set_db, set_files.
    rewrite alter_id' by done. by rewrite db_eta, world_eta.
  - by apply readFile_missing.
  - by apply writeFile_missing.
  - by apply deleteFile_missing.
  - done.
Qed.

End OpenTabs.

Lemma open_tab_absent_file_witness :
  files (db world_A1) !! fid_main = None ∧
  (addOpenTab pid_A1 "q1" fid_main world_A1 = (Ok tt, world_A1) ∧
   removeOpenTab pid_A1 "q1" fid_main world_A1 = (Ok tt, world_A1) ∧
   readFile fid_main world_A1 = (Throw (FileDoesNotExist fid_main), world_A1) ∧
   writeFile md5_table clock_ms fid_main None world_A1 =
     (Throw (FileDoesNotExist fid_main), world_A1) ∧
   deleteFile fid_main world_A1 =
     (Throw (FileDoesNotExist fid_main), world_A1) ∧
   is_NotFound (FileDoesNotExist fid_main) = true).
Proof.
  split; [reflexivity|].
  apply (open_tab_absent_file md5_table clock_ms world_A1 pid_A1 "q1"
           fid_main None).
  reflexivity.
Defined.

(** ** The change log under pushes *)

Lemma push_log_fresh change t :
  cl_id change = None ->
  push_log change t =
  (keygen t,
   {| rows := rows (coalesce change t)
              ++ [(keygen t, with_id (keygen t) change)];
      keygen := (keygen t + 1)%N |}).
Proof.
  intros Hid. unfold push_log. rewrite put_row_fresh by done.
  by destruct (coalesce_rows change t) as [-> _].
Qed.

(** C5, as the code has it.  Coalescing looks at the type of the two entries
    and at nothing else: a push of a change without [id] onto a log whose top
    row is [top] drops that row when both are of type editFile, whatever
    their targets, and keeps every row otherwise; the change is stored under
    the next key either way. *)
Theorem pushChangeLog_coalesces_by_type (w : World) (change top : ChangeLog)
    (base : list (N * ChangeLog)) (k : N) :
  log_wf (changeLogs (db w)) ->
  rows (changeLogs (db w)) = base ++ [(k, top)] ->
  cl_id change = None ->
  let key := keygen (changeLogs (db w)) in
  exists w',
    pushChangeLog change w = (Ok key, w') ∧
    rows (changeLogs (db w')) =
      ((if (cl_type change =? "editFile")%string
           && (cl_type top =? "editFile")%string
        then base else base ++ [(k, top)])
       ++ [(key, with_id key change)])%list ∧
    files (db w') = files (db w) ∧ projects (db w') = projects (db w) ∧
    settings (db w') = settings (db w).
Proof.
  intros Hwf Hrows Hid key. eexists. split.
  { rewrite pushChangeLog_run, push_log_fresh by done. reflexivity. }
  split_and!; try done.
  cbn [db set_db set_changeLogs changeLogs].
  rewrite push_log_fresh by done. cbn [snd rows]. fold key. f_equal.
  destruct (changeLogs (db w)) as [rs g]. cbn [rows keygen] in *. subst rs.
  destruct (String.eqb_spec (cl_type change) "editFile") as [Hc|Hc];
    destruct (String.eqb_spec (cl_type top) "editFile") as [Ht|Ht];
    cbn [andb].
  - by rewrite coalesce_snoc_edit.
  - by rewrite coalesce_snoc_keep.
  - by rewrite coalesce_other.
  - by rewrite coalesce_other.
Qed.

Definition edit_main : ChangeLog :=
  {| cl_id := None; cl_type := "editFile"; cl_contents := Some "Y";
     cl_file := {| ref_file := "q1/main.c"; ref_project := pid_A1 |} |}.

Definition edit_util : ChangeLog :=
  {| cl_id := None; cl_type := "editFile"; cl_contents := Some "Z";
     cl_file := {| ref_file := "q1/util.c"; ref_project := pid_A1 |} |}.

(** Project A1 after [writeFile] of q1/main.c: the top row is its edit. *)
Definition world_edited : World :=
  {| db := {| files := {[ fid_main := file_main ]};
              projects := {[ pid_A1 := project_A1 ]};
              settings := ∅;
              changeLogs :=
                {| rows := [(1%N, with_id 1 (new_entry pid_A1 "q1/main.c"
                                               (Some "X")));
                            (2%N, with_id 2 edit_main)];
                   keygen := 3 |} |};
     ticks := 3 |}.

Lemma log_wf_world_edited : log_wf (changeLogs (db world_edited)).
Proof.
  split_and!; cbn.
  - repeat constructor.
  - repeat constructor; cbn; lia.
  - lia.
Qed.

Lemma pushChangeLog_coalesces_by_type_witness :
  exists w',
    pushChangeLog edit_util world_edited = (Ok 3%N, w') ∧
    rows (changeLogs (db w')) =
      [(1%N, with_id 1 (new_entry pid_A1 "q1/main.c" (Some "X")));
       (3%N, with_id 3 edit_util)] ∧
    files (db w') = files (db world_edited) ∧
    projects (db w') = projects (db world_edited) ∧
    settings (db w') = settings (db world_edited).
Proof.
  apply (pushChangeLog_coalesces_by_type world_edited edit_util
           (with_id 2 edit_main)
           [(1%N, with_id 1 (new_entry pid_A1 "q1/main.c" (Some "X")))] 2%N).
  - apply log_wf_world_edited.
  - reflexivity.
  - reflexivity.
Defined.

(** C5, as stated, fails: two consecutive editFile pushes for different files
    of a project leave one row, the second; the edit of q1/main.c is gone
    from the log. *)
Lemma pushChangeLog_drops_edit_of_other_file :
  cl_file edit_main ≠ cl_file edit_util ∧
  exists w',
    (pushChangeLog edit_main >> pushChangeLog edit_util) world_A1
      = (Ok 2%N, w') ∧
    rows (changeLogs (db w')) = [(2%N, with_id 2 edit_util)].
Proof.
  split; [discriminate|]. eexists. split; reflexivity.
Qed.

(** ** Writing and renaming a file *)

Lemma alter_present {A} (g : A -> A) (m : gmap string A) i x :
  m !! i = Some x -> alter g i m = <[i := g x]> m.
Proof.
  intros H. apply map_eq. intros j. rewrite lookup_alter, lookup_insert.
  case_decide; [subst; by rewrite H|done].
Qed.

Section WriteFile.

Variable md5 : string -> string.
Variable Date_now_at : nat -> Z.

(** C4.  Two writes of an existing file in a row leave one editFile entry
    for them, on top of the log and with the contents of the second write:
    the entry of the first write is popped when the second is pushed.  The
    rows below it are the ones the first write left there. *)
Theorem writeFile_twice_one_entry (w : World) (id : string)
    (f : FileStored) (y z : string) :
  log_wf (changeLogs (db w)) ->
  files (db w) !! id = Some f ->
  let t := changeLogs (db w) in
  let base := rows (coalesce (edit_entry f (Some y)) t) in
  let k1 := keygen t in
  let k2 := (keygen t + 1)%N in
  exists w1 w2,
    writeFile md5 Date_now_at id (Some y) w = (Ok tt, w1) ∧
    writeFile md5 Date_now_at id (Some z) w1 = (Ok tt, w2) ∧
    rows (changeLogs (db w1)) =
      base ++ [(k1, with_id k1 (edit_entry f (Some y)))] ∧
    rows (changeLogs (db w2)) =
      base ++ [(k2, with_id k2 (edit_entry f (Some z)))] ∧
    top_row (changeLogs (db w2)) =
      Some (with_id k2 (edit_entry f (Some z))) ∧
    length (rows (changeLogs (db w2))) =
      length (rows (changeLogs (db w1))) ∧
    files (db w2) !! id =
      Some (written md5 (Some z) (Date_now_at (S (ticks w))) f).
Proof.
  intros Hwf Hf t base k1 k2.
  pose proof (writeFile_run md5 Date_now_at w id (Some y) f Hf) as H1.
  set (w1 := {| db := _; ticks := _ |}) in H1.
  set (f1 := written md5 (Some y) (Date_now_at (ticks w)) f).
  assert (files (db w1) !! id = Some f1) as Hf1.
  { subst w1. cbn [db set_files files pushed set_changeLogs].
    by rewrite lookup_alter_eq, Hf. }
  pose proof (writeFile_run md5 Date_now_at w1 id (Some z) f1 Hf1) as H2.
  set (w2 := {| db := _; ticks := _ |}) in H2.
  assert (changeLogs (db w1) =
          {| rows := base ++ [(k1, with_id k1 (edit_entry f (Some y)))];
             keygen := k2 |}) as Ht1.
  { subst w1. cbn [db set_files changeLogs pushed set_changeLogs].
    by rewrite push_log_fresh. }
  assert (log_wf (changeLogs (db w1))) as Hwf1.
  { subst w1. cbn [db set_files changeLogs pushed set_changeLogs].
    by apply push_log_wf. }
  assert (changeLogs (db w2) =
          {| rows := base ++ [(k2, with_id k2 (edit_entry f (Some z)))];
             keygen := (k2 + 1)%N |}) as Ht2.
  { subst w2. cbn [db set_files changeLogs pushed set_changeLogs].
    rewrite push_log_fresh by done. cbn [snd].
    rewrite Ht1 in Hwf1 |- *. cbn [keygen].
    rewrite coalesce_snoc_edit by done. done. }
  exists w1, w2. split_and!; try done.
  - by rewrite Ht1.
  - by rewrite Ht2.
  - by rewrite Ht2, top_row_snoc.
  - rewrite Ht1, Ht2. cbn [rows]. by rewrite !length_app.
  - subst w2. cbn [db set_files files pushed set_changeLogs].
    rewrite lookup_alter_eq, Hf1. done.
Qed.

End WriteFile.

Lemma writeFile_twice_one_entry_witness :
  exists w1 w2,
    writeFile md5_table clock_ms fid_main (Some "Y") world_main
      = (Ok tt, w1) ∧
    writeFile md5_table clock_ms fid_main (Some "Z") w1 = (Ok tt, w2) ∧
    rows (changeLogs (db w1)) =
      [(1%N, with_id 1 (new_entry pid_A1 "q1/main.c" (Some "X")));
       (2%N, with_id 2 (edit_entry file_main (Some "Y")))] ∧
    rows (changeLogs (db w2)) =
      [(1%N, with_id 1 (new_entry pid_A1 "q1/main.c" (Some "X")));
       (3%N, with_id 3 (edit_entry file_main (Some "Z")))] ∧
    top_row (changeLogs (db w2)) =
      Some (with_id 3 (edit_entry file_main (Some "Z"))) ∧
    length (rows (changeLogs (db w2))) = length (rows (changeLogs (db w1))) ∧
    files (db w2) !! fid_main =
      Some (written md5_table (Some "Z") (clock_ms 3) file_main).
Proof.
  apply (writeFile_twice_one_entry md5_table clock_ms world_main fid_main
           file_main "Y" "Z").
  - apply log_wf_world_main.
  - reflexivity.
Defined.

(** C6.  [renameFile] of an existing file changes the name of the record
    under the same id and appends two rows to the log: a newFile entry with
    the contents of the file under the new name, then a deleteFile entry for
    the old name.  No row of the log is removed and nothing else is written. *)
Theorem renameFile_two_entries (w : World) (fid newName : string)
    (f : FileStored) :
  files (db w) !! fid = Some f ->
  let k := keygen (changeLogs (db w)) in
  exists w',
    renameFile fid newName w = (Ok tt, w') ∧
    files (db w') = <[fid := renamed newName f]> (files (db w)) ∧
    rows (changeLogs (db w')) =
      rows (changeLogs (db w)) ++
      [(k, with_id k (new_entry (f_project f) newName (f_contents f)));
       ((k + 1)%N, with_id (k + 1) (delete_entry f))] ∧
    projects (db w') = projects (db w) ∧
    settings (db w') = settings (db w).
Proof.
  intros Hf k. eexists. split; [by apply renameFile_run|].
  cbn [db set_db pushed set_changeLogs set_files files projects settings
       changeLogs].
  split_and!; try done.
  - by apply alter_present.
  - rewrite !push_log_fresh by done. cbn [snd rows keygen].
    rewrite !coalesce_other by done. cbn [rows].
    by rewrite <- app_assoc.
Qed.

Lemma renameFile_two_entries_witness :
  exists w',
    renameFile fid_main "q1/util.c" world_main = (Ok tt, w') ∧
    files (db w') =
      <[fid_main := renamed "q1/util.c" file_main]> (files (db world_main)) ∧
    rows (changeLogs (db w')) =
      rows (changeLogs (db world_main)) ++
      [(2%N, with_id 2 (new_entry pid_A1 "q1/util.c" (Some "X")));
       (3%N, with_id 3 (delete_entry file_main))] ∧
    projects (db w') = projects (db world_main) ∧
    settings (db w') = settings (db world_main).
Proof.
  apply (renameFile_two_entries world_main fid_main "q1/util.c" file_main).
  reflexivity.
Defined.

(** ** Deleting a file *)

(** C8.  A file whose project is gone cannot be deleted.  When the record is
    still stored, [getProject] throws "project doesn't exist" before the test
    on its result is reached; the transaction is aborted, so the record stays
    and no deleteFile entry is pushed.  When the project was removed by
    [deleteProject], the records of its files went with it and [deleteFile]
    throws "file does not exist". *)
Theorem deleteFile_project_gone (w : World) (id : string) (f : FileStored) :
  files (db w) !! id = Some f ->
  (projects (db w) !! f_project f = None ->
   deleteFile id w = (Throw (ProjectDoesNotExist (f_project f)), w)) ∧
  (exists w1,
     deleteProject (f_project f) w = (Ok tt, w1) ∧
     deleteFile id w1 = (Throw (FileDoesNotExist id), w1)).
Proof.
  intros Hf. split; [by apply deleteFile_orphan|].
  eexists. split; [apply deleteProject_run|].
  apply deleteFile_missing.
  cbn [db set_db set_files set_projects files].
  apply map_lookup_filter_None. right. intros g Hg. cbn [snd].
  rewrite Hf in Hg. injection Hg as <-. tauto.
Qed.

(** The file q1/main.c without its project. *)
Definition world_orphan : World :=
  {| db := {| files := {[ fid_main := file_main ]}; projects := ∅;
              settings := ∅;
              changeLogs :=
                {| rows := [(1%N, with_id 1 (new_entry pid_A1 "q1/main.c"
                                               (Some "X")))];
                   keygen := 2 |} |};
     ticks := 2 |}.

Lemma deleteFile_project_gone_witness :
  files (db world_orphan) !! fid_main = Some file_main ∧
  projects (db world_orphan) !! pid_A1 = None ∧
  deleteFile fid_main world_orphan =
    (Throw (ProjectDoesNotExist pid_A1), world_orphan) ∧
  (exists w1,
     deleteProject pid_A1 world_orphan = (Ok tt, w1) ∧
     deleteFile fid_main w1 = (Throw (FileDoesNotExist fid_main), w1)).
Proof.
  pose proof (deleteFile_project_gone world_orphan fid_main file_main
                eq_refl) as [Ha Hb].
  split_and!; [reflexivity|reflexivity|exact (Ha eq_refl)|exact Hb].
Defined.

(** The same from the file and its project: the project is deleted, then the
    file. *)
Example deleteFile_after_deleteProject :
  exists w1,
    deleteProject pid_A1 world_main = (Ok tt, w1) ∧
    files (db w1) = ∅ ∧
    deleteFile fid_main w1 = (Throw (FileDoesNotExist fid_main), w1).
Proof. eexists. split_and!; reflexivity. Qed.

(** C3.  [setFileToRun] stores the name of the file under the question and
    [deleteFile] removes the entries of [runs] that are equal to the id of
    the file.  An entry set for a file therefore outlives it, unless the name
    of the file is its id.  (Under the question "__proto__" the assignment
    stores nothing; the entries after the delete are given for every
    question.) *)
Theorem deleteFile_keeps_run_entry (w : World) (id question : string)
    (f : FileStored) (p : ProjectStored) :
  files (db w) !! id = Some f ->
  projects (db w) !! f_project f = Some p ->
  f_name f ≠ id ->
  exists w1 w2 p',
    setFileToRun (f_project f) question (f_name f) w = (Ok tt, w1) ∧
    deleteFile id w1 = (Ok tt, w2) ∧
    files (db w2) = delete id (files (db w)) ∧
    projects (db w2) !! f_project f = Some p' ∧
    p_runs p' =
      filter (fun qv => qv.2 ≠ id)
        (assign_run question (f_name f) (p_runs p)) ∧
    (question ≠ "__proto__" -> p_runs p' !! question = Some (f_name f)).
Proof.
  intros Hf Hp Hne.
  set (p1 := with_runs (assign_run question (f_name f) (p_runs p)) p).
  pose proof (setFileToRun_run w (f_project f) question (f_name f) p Hp)
    as H1.
  set (w1 := set_db _ w) in H1.
  assert (projects (db w1) !! f_project f = Some p1) as Hp1.
  { subst w1. cbn [db set_db set_projects projects].
    by rewrite lookup_alter_eq, Hp. }
  assert (files (db w1) !! id = Some f) as Hf1 by done.
  pose proof (deleteFile_run w1 id f p1 Hf1 Hp1) as H2.
  set (w2 := set_db _ w1) in H2.
  exists w1, w2, (prune_runs id p1). split_and!; try done.
  - assert (projects (db w2) =
            alter (fun _ => prune_runs id p1) (f_project f)
              (projects (db w1))) as -> by reflexivity.
    by rewrite lookup_alter_eq, Hp1.
  - intros Hq. cbn [prune_runs p_runs p1 with_runs].
    apply map_lookup_filter_Some. split; [|done].
    unfold assign_run.
    destruct (String.eqb_spec question "__proto__"); [done|].
    apply lookup_insert_eq.
Qed.

Lemma deleteFile_keeps_run_entry_witness :
  exists w1 w2 p',
    setFileToRun pid_A1 "q1" "q1/main.c" world_main = (Ok tt, w1) ∧
    deleteFile fid_main w1 = (Ok tt, w2) ∧
    files (db w2) = delete fid_main (files (db world_main)) ∧
    projects (db w2) !! pid_A1 = Some p' ∧
    p_runs p' !! "q1" = Some "q1/main.c".
Proof.
  destruct (deleteFile_keeps_run_entry world_main fid_main "q1" file_main
              project_A1 eq_refl eq_refl)
    as (w1 & w2 & p' & H1 & H2 & H3 & H4 & _ & H6); [discriminate|].
  exists w1, w2, p'. split_and!; [done..|]. apply H6. discriminate.
Defined.

(** ** Creating a file *)

Lemma named_in_after_rename (fs : gmap string FileStored) fid f name newName :
  fs !! fid = Some f -> f_name f = name -> newName ≠ name ->
  named_in name (f_project f) (alter (renamed newName) fid fs) =
  pred (named_in name (f_project f) fs).
Proof.
  intros Hf Hn Hne. unfold named_in.
  rewrite (alter_present _ _ _ _ Hf).
  rewrite map_filter_insert_False by (cbn; intros [? _]; congruence).
  rewrite map_filter_delete. apply map_size_delete_Some.
  exists f. by apply map_lookup_filter_Some.
Qed.

Section NewFile.

Variable md5 : string -> string.
Variable Date_now_at : nat -> Z.
Variable atob : string -> option string.

(** C7.  After a file has been renamed, a file with its old name cannot be
    created: no record of the project has the name and the project exists,
    yet the id derived from the name is still the key of the renamed record
    and [files.add] is rejected with a ConstraintError, which is neither of
    the two errors of [newFile].  (The source lists this as a known
    problem.) *)
Theorem newFile_rejected_after_rename (w : World)
    (pid name newName : string) (contents : option string)
    (f : FileStored) (p : ProjectStored) :
  files (db w) !! md5 (pid +:+ name) = Some f ->
  f_name f = name -> f_project f = pid ->
  named_in name pid (files (db w)) = 1%nat ->
  projects (db w) !! pid = Some p ->
  newName ≠ name ->
  exists w1,
    renameFile (md5 (pid +:+ name)) newName w = (Ok tt, w1) ∧
    named_in name pid (files (db w1)) = 0%nat ∧
    projects (db w1) !! pid = Some p ∧
    newFile md5 Date_now_at atob pid name contents false w1 =
      (Throw ConstraintError, tick w1) ∧
    is_AlreadyExists ConstraintError = false ∧
    is_NotFound ConstraintError = false.
Proof.
  intros Hf Hname Hproj Hn Hp Hne. subst pid.
  pose proof (renameFile_run w (md5 (f_project f +:+ name)) newName f Hf)
    as H1.
  set (w1 := set_db _ w) in H1.
  assert (files (db w1) =
          alter (renamed newName) (md5 (f_project f +:+ name))
            (files (db w)))
    as Hfs by reflexivity.
  assert (named_in name (f_project f) (files (db w1)) = 0%nat) as Hn1.
  { rewrite Hfs, (named_in_after_rename _ _ f) by done. by rewrite Hn. }
  assert (projects (db w1) !! f_project f = Some p) as Hp1 by exact Hp.
  exists w1. split_and!; try done.
  eapply newFile_key_in_use; [apply decode_contents_plain|done|done|].
  rewrite Hfs, lookup_alter_eq, Hf. reflexivity.
Qed.

End NewFile.

Lemma newFile_rejected_after_rename_witness :
  exists w1,
    renameFile (md5_table (pid_A1 +:+ "q1/main.c")) "q1/util.c" world_main
      = (Ok tt, w1) ∧
    named_in "q1/main.c" pid_A1 (files (db w1)) = 0%nat ∧
    projects (db w1) !! pid_A1 = Some project_A1 ∧
    newFile md5_table clock_ms no_atob pid_A1 "q1/main.c" (Some "v1") false
      w1 = (Throw ConstraintError, tick w1) ∧
    is_AlreadyExists ConstraintError = false ∧
    is_NotFound ConstraintError = false.
Proof.
  apply (newFile_rejected_after_rename md5_table clock_ms no_atob world_main
           pid_A1 "q1/main.c" "q1/util.c" (Some "v1") file_main project_A1).
  - reflexivity.
  - reflexivity.
  - reflexivity.
  - vm_compute. reflexivity.
  - reflexivity.
  - discriminate.
Defined.

(** ** Which methods write to the change log *)

(** A row of the log of [w'] under a key the generator of [w] had not given
    out yet. *)
Definition new_row (w w' : World) : Prop :=
  exists k c, (keygen (changeLogs (db w)) <= k)%N ∧
              (k, c) ∈ rows (changeLogs (db w')).

Lemma push_log_new_row change t :
  cl_id change = None ->
  (keygen t, with_id (keygen t) change) ∈ rows (push_log change t).2.
Proof.
  intros Hid. rewrite push_log_fresh by done. cbn [snd rows].
  apply elem_of_app. right. by apply list_elem_of_singleton.
Qed.

Lemma push_log_keygen change t :
  cl_id change = None -> keygen (push_log change t).2 = (keygen t + 1)%N.
Proof. intros Hid. by rewrite push_log_fresh. Qed.

Section ChangeLogEntries.

Variable md5 : string -> string.
Variable Date_now_at : nat -> Z.
Variable atob : string -> option string.

(** C9, as the code has it.  The four file operations that change a record
    ([writeFile], [renameFile], [deleteFile], [newFile]) store at least one
    new row in the change log when they succeed.  [newProject],
    [deleteProject] and [setFileToRun] leave the change log as it is,
    whether they succeed or fail: the log has no entry type for them. *)
Theorem change_log_records_file_operations_only (w : World) :
  (∀ fid contents w',
     writeFile md5 Date_now_at fid contents w = (Ok tt, w') ->
     new_row w w') ∧
  (∀ fid newName w',
     renameFile fid newName w = (Ok tt, w') -> new_row w w') ∧
  (∀ id w', deleteFile id w = (Ok tt, w') -> new_row w w') ∧
  (∀ pid name contents base64 r w',
     newFile md5 Date_now_at atob pid name contents base64 w = (Ok r, w') ->
     new_row w w') ∧
  (∀ name r w',
     newProject md5 Date_now_at name w = (r, w') ->
     changeLogs (db w') = changeLogs (db w)) ∧
  (∀ pid r w',
     deleteProject pid w = (r, w') ->
     changeLogs (db w') = changeLogs (db w)) ∧
  (∀ pid question filename r w',
     setFileToRun pid question filename w = (r, w') ->
     changeLogs (db w') = changeLogs (db w)).
Proof.
  split_and!.
  - intros fid contents w' H.
    destruct (files (db w) !! fid) as [f|] eqn:Hf.
    + rewrite (writeFile_run _ _ _ _ _ _ Hf) in H. injection H as <-.
      eexists _, _. split; [reflexivity|].
      cbn [db set_files changeLogs pushed set_changeLogs].
      by apply push_log_new_row.
    + by rewrite writeFile_missing in H.
  - intros fid newName w' H.
    destruct (files (db w) !! fid) as [f|] eqn:Hf.
    + rewrite (renameFile_run _ _ _ _ Hf) in H. injection H as <-.
      eexists _, _. split; cycle 1.
      { cbn [db set_db set_files changeLogs pushed set_changeLogs].
        by apply push_log_new_row. }
      rewrite push_log_keygen by done. cbn [set_files changeLogs]. lia.
    + by rewrite renameFile_missing in H.
  - intros id w' H.
    destruct (files (db w) !! id) as [f|] eqn:Hf.
    + destruct (projects (db w) !! f_project f) as [p|] eqn:Hp.
      * rewrite (deleteFile_run _ _ _ _ Hf Hp) in H. injection H as <-.
        eexists _, _. split; [reflexivity|].
        cbn [db set_db set_projects set_files changeLogs pushed
             set_changeLogs].
        by apply push_log_new_row.
      * by rewrite (deleteFile_orphan _ _ _ Hf Hp) in H.
    + by rewrite deleteFile_missing in H.
  - intros pid name contents base64 r w' H.
    destruct (decode_contents atob (default "" contents) base64 w)
      as [[c|e] w0] eqn:Hd;
      pose proof (decode_contents_world _ _ _ _ _ _ Hd) as ->.
    2:{ by rewrite (newFile_undecodable _ _ _ _ _ _ _ _ _ Hd) in H. }
    destruct (named_in name pid (files (db w))) as [|n] eqn:Hn.
    2:{ rewrite (newFile_exists _ _ _ _ _ _ _ _ _ Hd) in H by lia.
        done. }
    destruct (projects (db w) !! pid) as [p|] eqn:Hp.
    2:{ by rewrite (newFile_no_project _ _ _ _ _ _ _ _ _ Hd Hn Hp) in H. }
    destruct (files (db w) !! md5 (pid +:+ name)) as [g|] eqn:Hf.
    { by rewrite (newFile_key_in_use _ _ _ _ _ _ _ _ _ _ _ Hd Hn Hp Hf)
        in H. }
    rewrite (newFile_run _ _ _ _ _ _ _ _ _ _ Hd Hn Hp Hf) in H.
    injection H as _ <-.
    eexists _, _. split; [reflexivity|].
    cbn [db set_files changeLogs pushed set_changeLogs].
    by apply push_log_new_row.
  - intros name r w' H.
    destruct (projects (db w) !! md5 name) as [p|] eqn:Hp.
    + rewrite (newProject_exists _ _ _ _ _ Hp) in H. by injection H as _ <-.
    + rewrite (newProject_run _ _ _ _ Hp) in H. by injection H as _ <-.
  - intros pid r w' H. rewrite deleteProject_run in H.
    by injection H as _ <-.
  - intros pid question filename r w' H.
    destruct (projects (db w) !! pid) as [p|] eqn:Hp.
    + rewrite (setFileToRun_run _ _ _ _ _ Hp) in H. by injection H as _ <-.
    + rewrite setFileToRun_missing in H by done. by injection H as _ <-.
Qed.

End ChangeLogEntries.

(** C9, as stated, fails: [newProject], [setFileToRun] and [deleteProject]
    succeed and the change log is what it was before the call. *)
Lemma project_operations_leave_log_unchanged :
  (exists b w',
     newProject md5_table clock_ms "A1" {| db := empty_db; ticks := 0 |}
       = (Ok b, w') ∧
     rows (changeLogs (db w')) = [] ∧
     changeLogs (db w') = changeLogs empty_db) ∧
  (exists w',
     setFileToRun pid_A1 "q1" "q1/main.c" world_main = (Ok tt, w') ∧
     changeLogs (db w') = changeLogs (db world_main)) ∧
  (exists w',
     deleteProject pid_A1 world_main = (Ok tt, w') ∧
     changeLogs (db w') = changeLogs (db world_main)).
Proof.
  split_and!.
  - eexists _, _. split_and!; reflexivity.
  - eexists. split; reflexivity.
  - eexists. split; reflexivity.
Qed.

(** ** Reconciliation *)

Definition known_type (c : ChangeLog) : bool :=
  (cl_type c =? "deleteFile")%string || (cl_type c =? "editFile")%string
  || (cl_type c =? "newFile")%string.

Lemma for_of_throws {A} (body : A -> Promise unit) (l : list A) (x : A) :
  x ∈ l ->
  (∀ w, exists e w', body x w = (Throw e, w')) ->
  ∀ w, exists e w', for_of l body w = (Throw e, w').
Proof.
  intros Hin Hx. induction l as [|y l IH]; [by apply elem_of_nil in Hin|].
  intros w. cbn [for_of]. unfold await.
  destruct (body y w) as [[[]|e] w1] eqn:Hy; [|by eauto].
  apply elem_of_cons in Hin as [->|Hin].
  - destruct (Hx w) as (e & w' & He). congruence.
  - by apply IH.
Qed.

Section Reconciliation.

Variable md5 : string -> string.
Variable Date_now_at : nat -> Z.
Variable atob : string -> option string.

Lemma applyChange_unknown c w :
  known_type c = false ->
  applyChange md5 Date_now_at atob c w = (Throw (UnknownChange c), w).
Proof.
  unfold known_type, applyChange. intros H.
  apply orb_false_elim in H as [H H3].
  apply orb_false_elim in H as [H1 H2].
  by rewrite H1, H2, H3.
Qed.

(** The steps of a batch, in the words of the specification: the projects
    to create, the changes to replay (each one a [deleteFile], a
    [writeFile], a [newFile] or an entry of unknown type), the projects to
    delete, and the clearing of the change log. *)
Inductive Step :=
| NewProject (name : string)
| DeleteFile (fid : string)
| WriteFile (fid : string) (contents : option string)
| NewFile (pid name : string) (contents : option string)
| Unrecognized (change : ChangeLog)
| DeleteProject (pid : string)
| ClearChangeLogs.

Definition step_of_change (c : ChangeLog) : Step :=
  let pid := md5 (ref_project (cl_file c)) in
  let fid := md5 (pid +:+ ref_file (cl_file c)) in
  if (cl_type c =? "deleteFile")%string then DeleteFile fid
  else if (cl_type c =? "editFile")%string then WriteFile fid (cl_contents c)
  else if (cl_type c =? "newFile")%string
  then NewFile pid (ref_file (cl_file c)) (cl_contents c)
  else Unrecognized c.

Definition batch_steps (remoteLog : list ChangeLog)
    (newProjects deletedProjects : list string) : list Step :=
  (NewProject <$> newProjects) ++ (step_of_change <$> remoteLog)
  ++ (DeleteProject <$> deletedProjects) ++ [ClearChangeLogs].

(** Whether the call of a step returns, and in which world. *)
Definition step_result (s : Step) (w : World) : Result unit * World :=
  match s with
  | NewProject name =>
      match newProject md5 Date_now_at name w with
      | (Ok _, w') => (Ok tt, w')
      | (Throw e, w') => (Throw e, w')
      end
  | DeleteFile fid => deleteFile fid w
  | WriteFile fid contents => writeFile md5 Date_now_at fid contents w
  | NewFile pid name contents =>
      match newFile md5 Date_now_at atob pid name contents false w with
      | (Ok _, w') => (Ok tt, w')
      | (Throw e, w') => (Throw e, w')
      end
  | Unrecognized c => (Throw (UnknownChange c), w)
  | DeleteProject pid => deleteProject pid w
  | ClearChangeLogs => clearChangeLogs w
  end.

(** The steps of [l] all return, one after the other, from [w] to [w']. *)
Fixpoint steps_return (l : list Step) (w w' : World) : Prop :=
  match l with
  | [] => w' = w
  | s :: l' => exists w1, step_result s w = (Ok tt, w1) ∧ steps_return l' w1 w'
  end.

Lemma applyChange_step c w :
  applyChange md5 Date_now_at atob c w = step_result (step_of_change c) w.
Proof.
  unfold applyChange, step_of_change.
  destruct (_ =? "deleteFile")%string; [done|].
  destruct (_ =? "editFile")%string; [done|].
  destruct (_ =? "newFile")%string; [|done].
  cbn [step_result]. unfold await. by destruct (newFile _ _ _ _ _ _ _ _).
Qed.

Lemma for_of_cons_ok {A} (body : A -> Promise unit) x l w w1 :
  body x w = (Ok tt, w1) -> for_of (x :: l) body w = for_of l body w1.
Proof. intros H. cbn [for_of]. by erewrite await_ok by exact H. Qed.

Lemma for_of_cons_throw {A} (body : A -> Promise unit) x l w e w1 :
  body x w = (Throw e, w1) -> for_of (x :: l) body w = (Throw e, w1).
Proof. intros H. cbn [for_of]. by erewrite await_throw by exact H. Qed.

(** A loop of the batch followed by the rest of the steps: the first step
    that throws ends the run with its error. *)
Lemma loop_throws {A} (body : A -> Promise unit) (mk : A -> Step)
    (rest : Promise unit) (tail : list Step) (l : list A) :
  (∀ x w, body x w = step_result (mk x) w) ->
  (∀ pre s post w wi e wi',
     tail = pre ++ s :: post -> steps_return pre w wi ->
     step_result s wi = (Throw e, wi') -> rest w = (Throw e, wi')) ->
  ∀ pre s post w wi e wi',
    (mk <$> l) ++ tail = pre ++ s :: post -> steps_return pre w wi ->
    step_result s wi = (Throw e, wi') ->
    (for_of l body >> rest) w = (Throw e, wi').
Proof.
  intros Hb Hrest. induction l as [|x l IH]; intros pre s post w wi e wi'.
  - cbn [fmap list_fmap app for_of]. intros Heq Hpre Hs.
    erewrite await_ok by reflexivity. by eapply Hrest.
  - rewrite fmap_cons. cbn [app]. intros Heq Hpre Hs.
    destruct pre as [|s0 pre]; cbn [app] in Heq; injection Heq as <- Heq.
    + cbn [steps_return] in Hpre. subst wi.
      erewrite await_throw; [done|].
      apply for_of_cons_throw. by rewrite Hb.
    + destruct Hpre as (w1 & H0 & Hpre). rewrite <- Hb in H0.
      unfold await. rewrite (for_of_cons_ok _ _ _ _ _ H0).
      by apply (IH pre s post w1 wi e wi').
Qed.

Lemma batch_step_throws (remoteLog : list ChangeLog)
    (newProjects deletedProjects : list string) pre s post w wi e wi' :
  batch_steps remoteLog newProjects deletedProjects = pre ++ s :: post ->
  steps_return pre w wi ->
  step_result s wi = (Throw e, wi') ->
  applyChanges_body md5 Date_now_at atob remoteLog newProjects
    deletedProjects w = (Throw e, wi').
Proof.
  unfold batch_steps, applyChanges_body.
  apply (loop_throws _ NewProject).
  { intros x w0. unfold await. cbn [step_result].
    by destruct (newProject _ _ _ _) as [[?|?] ?]. }
  apply (loop_throws _ step_of_change); [apply applyChange_step|].
  apply (loop_throws _ DeleteProject); [done|].
  intros pre' s' post' w0 wi0 e0 wi0' Heq Hpre Hs.
  destruct pre' as [|s0 pre']; cbn [app] in Heq; injection Heq as <- Heq.
  - cbn [steps_return] in Hpre. by subst wi0.
  - by destruct pre'.
Qed.

(** C2.  When a step of the batch throws, whichever it is (a [newProject],
    a replayed [deleteFile], [writeFile] or [newFile], an entry of
    unrecognized type, a [deleteProject] or the clearing of the log) after
    the steps before it have returned, [applyChanges] throws the error of
    that step and the database is the one before the call: no project is
    created or deleted, no change is replayed and the change log keeps its
    rows.  A batch with an entry of unrecognized type always has such a
    step. *)
Theorem applyChanges_aborts_batch (w : World) (remoteLog : list ChangeLog)
    (newProjects deletedProjects : list string) :
  (exists pre s post wi e wi',
     batch_steps remoteLog newProjects deletedProjects = pre ++ s :: post ∧
     steps_return pre w wi ∧ step_result s wi = (Throw e, wi')) ∨
  (exists c, c ∈ remoteLog ∧ known_type c = false) ->
  exists e w',
    applyChanges md5 Date_now_at atob remoteLog newProjects
      deletedProjects w = (Throw e, w') ∧
    db w' = db w ∧
    (∀ pre s post wi e0 wi',
       batch_steps remoteLog newProjects deletedProjects = pre ++ s :: post ->
       steps_return pre w wi -> step_result s wi = (Throw e0, wi') ->
       e = e0).
Proof.
  intros H.
  assert (exists e w',
            applyChanges_body md5 Date_now_at atob remoteLog newProjects
              deletedProjects w = (Throw e, w')) as (e & w' & Hb).
  { destruct H as [(pre & s & post & wi & e & wi' & Heq & Hpre & Hs)
                  |(c & Hin & Hc)].
    { eexists _, _. by eapply batch_step_throws. }
    unfold applyChanges_body, await.
    destruct (for_of newProjects _ w) as [[[]|e] w1]; [|by eauto].
    destruct (for_of_throws (applyChange md5 Date_now_at atob)
                remoteLog c Hin
                (fun w => ex_intro _ _ (ex_intro _ _
                   (applyChange_unknown c w Hc))) w1) as (e & w' & ->).
    by eauto. }
  eexists _, _. split_and!.
  - unfold applyChanges. by apply transaction_throw.
  - done.
  - intros pre s post wi e0 wi' Heq Hpre Hs.
    pose proof (batch_step_throws _ _ _ _ _ _ _ _ _ _ Heq Hpre Hs) as Hb'.
    congruence.
Qed.

End Reconciliation.

Definition remote_new_main : ChangeLog :=
  {| cl_id := Some 7%N; cl_type := "newFile"; cl_contents := Some "v1";
     cl_file := {| ref_file := "q1/main.c"; ref_project := "A1" |} |}.

Definition remote_rename_main : ChangeLog :=
  {| cl_id := Some 8%N; cl_type := "renameFile"; cl_contents := None;
     cl_file := {| ref_file := "q1/main.c"; ref_project := "A1" |} |}.

Definition remote_delete_util : ChangeLog :=
  {| cl_id := Some 8%N; cl_type := "deleteFile"; cl_contents := None;
     cl_file := {| ref_file := "q1/util.c"; ref_project := "A1" |} |}.

(** The first entry is replayed, the second deletes a file that is not
    stored: its error is the error of the batch and the file of the first
    entry is not kept. *)
Lemma applyChanges_aborts_batch_witness :
  exists w',
    applyChanges md5_table clock_ms no_atob
      [remote_new_main; remote_delete_util] [] [] world_A1 =
      (Throw (FileDoesNotExist "441c1b0a05d844ec43f512c2eba790c0"), w') ∧
    db w' = db world_A1.
Proof.
  set (wi := (newFile md5_table clock_ms no_atob pid_A1 "q1/main.c"
                (Some "v1") false world_A1).2).
  assert (steps_return md5_table clock_ms no_atob
            [NewFile pid_A1 "q1/main.c" (Some "v1")] world_A1 wi) as Hpre.
  { exists wi. split; [vm_compute; reflexivity|reflexivity]. }
  assert (step_result md5_table clock_ms no_atob
            (DeleteFile "441c1b0a05d844ec43f512c2eba790c0") wi =
          (Throw (FileDoesNotExist "441c1b0a05d844ec43f512c2eba790c0"), wi))
    as Hs by (vm_compute; reflexivity).
  assert (batch_steps md5_table [remote_new_main; remote_delete_util] [] [] =
          [NewFile pid_A1 "q1/main.c" (Some "v1")]
          ++ DeleteFile "441c1b0a05d844ec43f512c2eba790c0"
             :: [ClearChangeLogs]) as Heq by reflexivity.
  destruct (applyChanges_aborts_batch md5_table clock_ms no_atob world_A1
              [remote_new_main; remote_delete_util] [] [])
    as (e & w' & H1 & H2 & H3).
  { left. eexists _, _, _, _, _, _. split_and!; [exact Heq|exact Hpre|exact Hs]. }
  exists w'. rewrite <- (H3 _ _ _ _ _ _ Heq Hpre Hs). by split.
Defined.

(** The same batch outside the transaction: the file of the first entry has
    been written when the second entry throws.  These are the writes the
    abort drops. *)
Example applyChanges_body_partial :
  exists w',
    applyChanges_body md5_table clock_ms no_atob
      [remote_new_main; remote_rename_main] [] [] world_A1
      = (Throw (UnknownChange remote_rename_main), w') ∧
    f_contents <$> files (db w') !! fid_main = Some (Some "v1") ∧
    length (rows (changeLogs (db w'))) = 1%nat.
Proof. eexists. split_and!; reflexivity. Qed.

Lemma named_in_empty_project (fs : gmap string FileStored) name pid :
  filter (fun kv => f_project kv.2 = pid) fs = ∅ ->
  named_in name pid fs = 0%nat.
Proof.
  intros He. unfold named_in. apply map_size_empty_iff.
  apply map_empty_filter. intros k g Hg [_ Hp].
  by apply (map_empty_filter_1 _ _ He k g Hg).
Qed.

Section Replay.

Variable md5 : string -> string.
Variable Date_now_at : nat -> Z.
Variable atob : string -> option string.

(** C1.  A remote log that creates f1 in the project named [pname], sets
    its contents to "v2" and deletes it is applied to a project without
    files: [applyChanges] succeeds, the three entries are replayed in
    order, the files table is the one before the call, so the project has
    no file f1, and the change log has no rows.  The id derived for f1 is
    taken to be free, as it is unless two names have the same digest. *)
Theorem applyChanges_new_edit_delete (w : World) (pname f1 : string)
    (p : ProjectStored) (c1 c3 : option string) (i1 i2 i3 : option N) :
  projects (db w) !! md5 pname = Some p ->
  filter (fun kv => f_project kv.2 = md5 pname) (files (db w)) = ∅ ->
  files (db w) !! md5 (md5 pname +:+ f1) = None ->
  let pid := md5 pname in
  let fid := md5 (pid +:+ f1) in
  let target := {| ref_file := f1; ref_project := pname |} in
  let new := {| cl_id := i1; cl_type := "newFile"; cl_contents := c1;
                cl_file := target |} in
  let edit := {| cl_id := i2; cl_type := "editFile";
                 cl_contents := Some "v2"; cl_file := target |} in
  let del := {| cl_id := i3; cl_type := "deleteFile"; cl_contents := c3;
                cl_file := target |} in
  exists w1 w2 w3 w',
    applyChange md5 Date_now_at atob new w = (Ok tt, w1) ∧
    f_contents <$> files (db w1) !! fid = Some (Some (default "" c1)) ∧
    applyChange md5 Date_now_at atob edit w1 = (Ok tt, w2) ∧
    f_contents <$> files (db w2) !! fid = Some (Some "v2") ∧
    applyChange md5 Date_now_at atob del w2 = (Ok tt, w3) ∧
    files (db w3) !! fid = None ∧
    applyChanges md5 Date_now_at atob [new; edit; del] [] [] w
      = (Ok tt, w') ∧
    files (db w') = files (db w) ∧
    files (db w') !! fid = None ∧
    named_in f1 pid (files (db w')) = 0%nat ∧
    rows (changeLogs (db w')) = [] ∧
    getChangeLogs w' = (Ok [], w').
Proof.
  intros Hp Hempty Hfree pid fid target new edit del.
  pose proof (named_in_empty_project _ f1 _ Hempty) as Hn.
  (* newFile *)
  pose proof (newFile_run md5 Date_now_at atob w pid f1 c1 false _ p
                (decode_contents_plain atob _ w) Hn Hp Hfree) as H1.
  cbv zeta in H1.
  set (r1 := created md5 pid f1 (default "" c1) (Date_now_at (ticks w)))
    in H1.
  set (w1 := {| db := _; ticks := _ |}) in H1.
  assert (files (db w1) = <[fid := r1]> (files (db w))) as Hfs1
    by reflexivity.
  assert (files (db w1) !! fid = Some r1) as Hf1
    by (rewrite Hfs1; apply lookup_insert_eq).
  assert (applyChange md5 Date_now_at atob new w = (Ok tt, w1)) as Ha1.
  { unfold applyChange. cbn [cl_type new String.eqb Ascii.eqb Bool.eqb].
    fold pid. cbn [cl_file ref_file ref_project new target cl_contents].
    by erewrite await_ok by exact H1. }
  (* writeFile *)
  pose proof (writeFile_run md5 Date_now_at w1 fid (Some "v2") r1 Hf1)
    as H2.
  set (r2 := written md5 (Some "v2") (Date_now_at (ticks w1))) in H2.
  set (w2 := {| db := _; ticks := _ |}) in H2.
  assert (files (db w2) = alter r2 fid (files (db w1))) as Hfs2
    by reflexivity.
  assert (files (db w2) !! fid = Some (r2 r1)) as Hf2
    by (rewrite Hfs2, lookup_alter_eq, Hf1; reflexivity).
  assert (applyChange md5 Date_now_at atob edit w1 = (Ok tt, w2)) as Ha2
    by exact H2.
  (* deleteFile *)
  assert (projects (db w2) !! f_project (r2 r1) = Some p) as Hp2
    by exact Hp.
  pose proof (deleteFile_run w2 fid (r2 r1) p Hf2 Hp2) as H3.
  set (w3 := set_db _ w2) in H3.
  assert (files (db w3) = delete fid (files (db w2))) as Hfs3
    by reflexivity.
  assert (applyChange md5 Date_now_at atob del w2 = (Ok tt, w3)) as Ha3
    by exact H3.
  assert (files (db w3) = files (db w)) as Hfs.
  { rewrite Hfs3, Hfs2, Hfs1, delete_alter_eq, delete_insert_eq.
    by apply delete_id. }
  exists w1, w2, w3, (set_db (set_changeLogs clear_rows) w3).
  split_and!; try done.
  - by rewrite Hf1.
  - by rewrite Hf2.
  - by rewrite Hfs.
  - assert (for_of [new; edit; del] (applyChange md5 Date_now_at atob) w
            = (Ok tt, w3)) as Hloop.
    { cbn [for_of].
      erewrite await_ok by exact Ha1.
      erewrite await_ok by exact Ha2.
      erewrite await_ok by exact Ha3. reflexivity. }
    unfold applyChanges. apply transaction_ok.
    unfold applyChanges_body.
    erewrite await_ok by reflexivity.
    erewrite await_ok by exact Hloop.
    erewrite await_ok by reflexivity.
    apply clearChangeLogs_run.
  - cbn [db set_db set_changeLogs files]. by rewrite Hfs.
  - cbn [db set_db set_changeLogs files]. by rewrite Hfs.
Qed.

End Replay.

Lemma applyChanges_new_edit_delete_witness :
  exists w1 w2 w3 w',
    applyChange md5_table clock_ms no_atob
      (mkChangeLog (Some 7%N) "newFile" (Some "v1")
         (mkFileRef "q1/main.c" "A1")) world_A1 = (Ok tt, w1) ∧
    f_contents <$> files (db w1) !! fid_main = Some (Some "v1") ∧
    applyChange md5_table clock_ms no_atob
      (mkChangeLog (Some 8%N) "editFile" (Some "v2")
         (mkFileRef "q1/main.c" "A1")) w1 = (Ok tt, w2) ∧
    f_contents <$> files (db w2) !! fid_main = Some (Some "v2") ∧
    applyChange md5_table clock_ms no_atob
      (mkChangeLog (Some 9%N) "deleteFile" None
         (mkFileRef "q1/main.c" "A1")) w2 = (Ok tt, w3) ∧
    files (db w3) !! fid_main = None ∧
    applyChanges md5_table clock_ms no_atob
      [mkChangeLog (Some 7%N) "newFile" (Some "v1")
         (mkFileRef "q1/main.c" "A1");
       mkChangeLog (Some 8%N) "editFile" (Some "v2")
         (mkFileRef "q1/main.c" "A1");
       mkChangeLog (Some 9%N) "deleteFile" None
         (mkFileRef "q1/main.c" "A1")] [] [] world_A1 = (Ok tt, w') ∧
    files (db w') = files (db world_A1) ∧
    files (db w') !! fid_main = None ∧
    named_in "q1/main.c" pid_A1 (files (db w')) = 0%nat ∧
    rows (changeLogs (db w')) = [] ∧
    getChangeLogs w' = (Ok [], w').
Proof.
  apply (applyChanges_new_edit_delete md5_table clock_ms no_atob world_A1
           "A1" "q1/main.c" project_A1 (Some "v1") None
           (Some 7%N) (Some 8%N) (Some 9%N)).
  - reflexivity.
  - reflexivity.
  - reflexivity.
Defined.


(** * The remaining methods of the class *)

(** ** Tables read in key order

    [toArray()], [each()] and the queries on an index hand out the records
    in the order of the primary key; string keys are compared code unit by
    code unit. *)
Definition key_le {A} (x y : string * A) : Prop := String.leb x.1 y.1 = true.

#[global] Instance key_le_dec {A} (x y : string * A) : Decision (key_le x y).
Proof. unfold key_le. apply _. Defined.

Definition in_key_order {A} (m : gmap string A) : list (string * A) :=
  merge_sort key_le (map_to_list m).

Definition set_settings
    (g : gmap N SettingsStored -> gmap N SettingsStored) (d : StorageDB)
    : StorageDB :=
  {| files := files d; projects := projects d; settings := g (settings d);
     changeLogs := changeLogs d |}.

(** The fields [setSettings] reads from its argument. *)
Record Settings := mkSettings {
  editor_mode : Z;
  font_size : Z;
  font : string;
  theme : Z;
  space_tab : Z;
  tab_width : Z
}.

Definition settings_of (s : SettingsStored) : Settings :=
  {| editor_mode := s_editor_mode s; font_size := s_font_size s;
     font := s_font s; theme := s_theme s; space_tab := s_space_tab s;
     tab_width := s_tab_width s |}.

Definition with_last_modified (now : Z) (p : ProjectStored) : ProjectStored :=
  {| p_id := p_id p; p_name := p_name p; p_runs := p_runs p;
     p_last_modified := now; p_open_tabs := p_open_tabs p |}.

Section Queries.

Variable Date_now_at : nat -> Z.
(** [new Settings()]: the defaults of the class, which is not part of the
    sources. *)
Variable new_Settings : Settings.

(** [settings || new Settings()]: the stored object, with its [id], or the
    defaults. *)
Definition getSettings : Promise (SettingsStored + Settings) :=
  transaction (
    let* settings := gets (fun d => settings d !! 0%N) in
    resolve (match settings with
             | Some s => inl s
             | None => inr new_Settings
             end)).

Definition setSettings (settings : Settings) : Promise unit :=
  transaction (
    modify (set_settings (insert 0%N
      {| s_id := 0; s_editor_mode := editor_mode settings;
         s_font_size := font_size settings; s_font := font settings;
         s_theme := theme settings; s_space_tab := space_tab settings;
         s_tab_width := tab_width settings |}))).

Definition getProjectFiles (pid : string) : Promise (list FileBrief) :=
  transaction (
    let* p := getProject pid in
    let* now := Date_now Date_now_at in
    let p := with_last_modified now p in
    modify (set_projects (insert (p_id p) p)) >>
    gets (fun d =>
      mkBrief <$> (snd <$> filter (fun kv => f_project kv.2 = pid)
                                  (in_key_order (files d))))).

Definition getProjects : Promise (list ProjectBrief) :=
  transaction (
    gets (fun d => mkProjectBrief_of <$> (snd <$> in_key_order (projects d)))).

Definition getAllFiles : Promise (list FileBrief) :=
  transaction (
    gets (fun d => mkBrief <$> (snd <$> in_key_order (files d)))).

(** [getOpenTabs] opens no transaction and does not look at [question]. *)
Definition getOpenTabs (proj question : string) : Promise (list FileBrief) :=
  gets (fun d =>
    mkBrief <$> (snd <$> filter (fun kv => f_project kv.2 = proj
                                           ∧ f_open kv.2 = 1%N)
                                (in_key_order (files d)))).

End Queries.

(** The file created second has the smaller id and is listed first. *)
Example getAllFiles_in_key_order :
  exists w l,
    (newFile md5_table clock_ms no_atob pid_A1 "q1/util.c" (Some "Y") false >>
     getAllFiles) world_main = (Ok l, w) ∧
    fb_name <$> l = ["q1/util.c"; "q1/main.c"] ∧
    fb_id <$> l = ["441c1b0a05d844ec43f512c2eba790c0"; fid_main].
Proof. eexists _, _. split_and!; vm_compute; reflexivity. Qed.

(** ** Listings *)

Lemma elem_of_in_key_order {A} (m : gmap string A) k x :
  (k, x) ∈ in_key_order m ↔ m !! k = Some x.
Proof.
  unfold in_key_order. rewrite merge_sort_Permutation.
  apply elem_of_map_to_list.
Qed.

Lemma elem_of_listing {A B} (g : A -> B) (P : string * A -> Prop)
    `{!∀ kv, Decision (P kv)} (m : gmap string A) (b : B) :
  b ∈ g <$> (snd <$> filter P (in_key_order m)) ↔
  exists k x, m !! k = Some x ∧ P (k, x) ∧ b = g x.
Proof.
  rewrite list_elem_of_fmap. split.
  - intros (x & -> & Hx). apply list_elem_of_fmap in Hx as ([k x'] & -> & Hx).
    apply list_elem_of_filter in Hx as [HP Hx].
    apply elem_of_in_key_order in Hx. by exists k, x'.
  - intros (k & x & Hm & HP & ->). exists x. split; [done|].
    apply list_elem_of_fmap. exists (k, x). split; [done|].
    apply list_elem_of_filter. split; [done|].
    by apply elem_of_in_key_order.
Qed.

Lemma elem_of_listing_all {A B} (g : A -> B) (m : gmap string A) (b : B) :
  b ∈ g <$> (snd <$> in_key_order m) ↔
  exists k x, m !! k = Some x ∧ b = g x.
Proof.
  rewrite list_elem_of_fmap. split.
  - intros (x & -> & Hx). apply list_elem_of_fmap in Hx as ([k x'] & -> & Hx).
    apply elem_of_in_key_order in Hx. by exists k, x'.
  - intros (k & x & Hm & ->). exists x. split; [done|].
    apply list_elem_of_fmap. exists (k, x). split; [done|].
    by apply elem_of_in_key_order.
Qed.

(** ** Settings *)

Section SettingsProperties.

Variable new_Settings : Settings.

(** X1.  [setSettings] overwrites the one settings record: after two calls
    [getSettings] returns the record with id 0 whose fields are those of the
    second argument, the settings table is the one a single call with the
    second argument gives, and no other table is written. *)
Theorem setSettings_getSettings (w : World) (s1 s2 : Settings) :
  exists w1 w2 st,
    setSettings s1 w = (Ok tt, w1) ∧
    setSettings s2 w1 = (Ok tt, w2) ∧
    getSettings new_Settings w2 = (Ok (inl st), w2) ∧
    s_id st = 0%N ∧ settings_of st = s2 ∧
    settings (db w2) = settings (db (setSettings s2 w).2) ∧
    (∀ k, k ≠ 0%N -> settings (db w2) !! k = settings (db w) !! k) ∧
    files (db w2) = files (db w) ∧ projects (db w2) = projects (db w) ∧
    changeLogs (db w2) = changeLogs (db w).
Proof.
  eexists _, _, _. split_and!; try reflexivity.
  - unfold getSettings. apply transaction_ok.
    erewrite await_ok by reflexivity.
    cbn [db set_settings settings]. rewrite lookup_insert_eq. reflexivity.
  - reflexivity.
  - by destruct s2.
  - cbn. apply insert_insert_eq.
  - intros k Hk. cbn. by rewrite !lookup_insert_ne.
Qed.

(** X2.  Without a settings record [getSettings] returns the defaults and
    writes nothing; in particular it does not store them, and a later
    [setSettings] is what creates the record. *)
Theorem getSettings_default (w : World) (s : Settings) :
  settings (db w) !! 0%N = None ->
  getSettings new_Settings w = (Ok (inr new_Settings), w) ∧
  exists w1 st,
    setSettings s w = (Ok tt, w1) ∧
    getSettings new_Settings w1 = (Ok (inl st), w1) ∧
    settings_of st = s.
Proof.
  intros Hs. split.
  - unfold getSettings. apply transaction_ok.
    erewrite await_ok by reflexivity. cbn. by rewrite Hs.
  - eexists _, _. split_and!; [reflexivity| |].
    + unfold getSettings. apply transaction_ok.
      erewrite await_ok by reflexivity.
      cbn [db set_settings settings]. rewrite lookup_insert_eq. reflexivity.
    + by destruct s.
Qed.

End SettingsProperties.

Definition settings_dark : Settings :=
  {| editor_mode := 0; font_size := 13; font := "Consolas"; theme := 1;
     space_tab := 1; tab_width := 2 |}.

Definition settings_light : Settings :=
  {| editor_mode := 1; font_size := 11; font := "Courier"; theme := 0;
     space_tab := 0; tab_width := 4 |}.

Lemma getSettings_default_witness :
  settings (db world_main) !! 0%N = None ∧
  getSettings settings_dark world_main = (Ok (inr settings_dark), world_main) ∧
  exists w1 st,
    setSettings settings_light world_main = (Ok tt, w1) ∧
    getSettings settings_dark w1 = (Ok (inl st), w1) ∧
    settings_of st = settings_light.
Proof.
  split; [reflexivity|].
  apply (getSettings_default settings_dark world_main settings_light).
  reflexivity.
Defined.

(** ** Projects and their files *)

Definition project_briefs (pid : string) (fs : gmap string FileStored)
    : list FileBrief :=
  mkBrief <$> (snd <$> filter (fun kv => f_project kv.2 = pid)
                              (in_key_order fs)).

Section ProjectFiles.

Variable md5 : string -> string.
Variable Date_now_at : nat -> Z.
Variable atob : string -> option string.

Lemma getProjectFiles_run w pid p :
  projects (db w) !! pid = Some p ->
  getProjectFiles Date_now_at pid w =
  (Ok (project_briefs pid (files (db w))),
   {| db := set_projects
              (insert (p_id p)
                 (with_last_modified (Date_now_at (ticks w)) p)) (db w);
      ticks := S (ticks w) |}).
Proof.
  intros Hp. unfold getProjectFiles. apply transaction_ok.
  erewrite await_ok by (apply getProject_ok; exact Hp).
  erewrite await_ok by reflexivity. reflexivity.
Qed.

Lemma getProjectFiles_missing w pid :
  projects (db w) !! pid = None ->
  getProjectFiles Date_now_at pid w = (Throw (ProjectDoesNotExist pid), w).
Proof.
  intros Hp. unfold getProjectFiles.
  erewrite transaction_throw; [by rewrite world_eta|].
  erewrite await_throw by (by apply getProject_missing). done.
Qed.

(** X3.  [getProjectFiles] of a stored project returns the briefs of the
    records whose project is [pid], no other brief, and writes the read time
    into [last_modified] of the project; files, settings and change log are
    not written. *)
Theorem getProjectFiles_lists_project (w : World) (pid : string)
    (p : ProjectStored) :
  projects (db w) !! pid = Some p ->
  exists l w',
    getProjectFiles Date_now_at pid w = (Ok l, w') ∧
    (∀ b, b ∈ l ↔
          exists k f, files (db w) !! k = Some f ∧ f_project f = pid
                      ∧ b = mkBrief f) ∧
    projects (db w') =
      <[p_id p := with_last_modified (Date_now_at (ticks w)) p]>
        (projects (db w)) ∧
    files (db w') = files (db w) ∧ settings (db w') = settings (db w) ∧
    changeLogs (db w') = changeLogs (db w).
Proof.
  intros Hp. eexists _, _. split; [by apply getProjectFiles_run|].
  split_and!; try reflexivity.
  intros b. unfold project_briefs.
  by rewrite (elem_of_listing mkBrief (fun kv => f_project kv.2 = pid)).
Qed.

(** X4.  Two calls of [getProjectFiles] in a row return the same list: the
    first call changes the time stamp of the project and no file. *)
Theorem getProjectFiles_twice (w : World) (pid : string) (p : ProjectStored) :
  projects (db w) !! pid = Some p ->
  exists l w1 w2,
    getProjectFiles Date_now_at pid w = (Ok l, w1) ∧
    getProjectFiles Date_now_at pid w1 = (Ok l, w2).
Proof.
  intros Hp.
  pose proof (getProjectFiles_run w pid p Hp) as H1.
  set (w1 := {| db := _; ticks := _ |}) in H1.
  assert (exists p1, projects (db w1) !! pid = Some p1) as [p1 Hp1].
  { subst w1. cbn [db set_projects projects].
    destruct (decide (p_id p = pid)) as [->|Hne].
    - rewrite lookup_insert_eq. by eexists.
    - rewrite lookup_insert_ne by done. by eexists. }
  eexists _, _, _. split; [exact H1|].
  by rewrite (getProjectFiles_run w1 pid p1 Hp1).
Qed.

(** X5.  [deleteProject] never throws.  It removes the project record and
    the records of its files and of no other file, leaves the other projects
    and the change log alone, and a second call changes nothing; afterwards
    [getProjectFiles] throws and [getAllFiles] lists no file of the
    project. *)
Theorem deleteProject_removes_files (w : World) (pid : string) :
  exists w' l,
    deleteProject pid w = (Ok tt, w') ∧
    projects (db w') !! pid = None ∧
    (∀ q, q ≠ pid -> projects (db w') !! q = projects (db w) !! q) ∧
    (∀ k f, files (db w') !! k = Some f ↔
            files (db w) !! k = Some f ∧ f_project f ≠ pid) ∧
    changeLogs (db w') = changeLogs (db w) ∧
    deleteProject pid w' = (Ok tt, w') ∧
    getProjectFiles Date_now_at pid w' = (Throw (ProjectDoesNotExist pid), w') ∧
    getAllFiles w' = (Ok l, w') ∧
    (∀ b, b ∈ l -> fb_project b ≠ pid).
Proof.
  eexists _, _. split; [apply deleteProject_run|].
  cbn [db set_db set_files set_projects files projects changeLogs].
  split_and!.
  - apply lookup_delete_eq.
  - intros q Hq. by apply lookup_delete_ne.
  - intros k f. apply map_lookup_filter_Some.
  - reflexivity.
  - rewrite deleteProject_run. unfold set_db, set_files, set_projects.
    cbn [db files projects settings changeLogs ticks].
    f_equal. f_equal. f_equal.
    + apply map_filter_id. intros k f Hf.
      by apply map_lookup_filter_Some in Hf as [_ Hf].
    + apply delete_id, lookup_delete_eq.
  - apply getProjectFiles_missing. apply lookup_delete_eq.
  - reflexivity.
  - intros b Hb.
    apply (elem_of_listing_all mkBrief) in Hb as (k & f & Hf & ->).
    by apply map_lookup_filter_Some in Hf as [_ Hf].
Qed.

(** X6.  [newProject] stores a project without run entries under the digest
    of its name; the project is then listed by [getProjects], has no file to
    run for any question, has no files when no stored record names it as
    its project, and a second [newProject] with the name is rejected with a
    ConstraintError. *)
Theorem newProject_then_read (w : World) (name question : string) :
  projects (db w) !! md5 name = None ->
  filter (fun kv => f_project kv.2 = md5 name) (files (db w)) = ∅ ->
  exists b w1 l w2,
    newProject md5 Date_now_at name w = (Ok b, w1) ∧
    pb_id b = md5 name ∧ pb_name b = name ∧
    getProjects w1 = (Ok l, w1) ∧ b ∈ l ∧
    getFileToRun (md5 name) question w1 =
      (Ok (if on_Object_prototype question then RunInherited question
           else RunFalse), w1) ∧
    getProjectFiles Date_now_at (md5 name) w1 = (Ok [], w2) ∧
    newProject md5 Date_now_at name w1 = (Throw ConstraintError, tick w1) ∧
    files (db w1) = files (db w) ∧ changeLogs (db w1) = changeLogs (db w).
Proof.
  intros Hp Hfiles.
  pose proof (newProject_run md5 Date_now_at w name Hp) as H1.
  set (p := fresh_project md5 name (Date_now_at (ticks w))) in H1.
  set (w1 := {| db := _; ticks := _ |}) in H1.
  assert (projects (db w1) !! md5 name = Some p) as Hp1
    by apply lookup_insert_eq.
  eexists _, _, _, _. split; [exact H1|].
  split_and!; try reflexivity.
  - apply (elem_of_listing_all mkProjectBrief_of). by exists (md5 name), p.
  - unfold getFileToRun. apply transaction_ok.
    erewrite await_ok by (apply getProject_ok; exact Hp1). reflexivity.
  - rewrite (getProjectFiles_run w1 _ p Hp1).
    assert (project_briefs (md5 name) (files (db w1)) = []) as ->;
      [|reflexivity].
    apply elem_of_nil_inv. intros b Hb.
    apply (elem_of_listing mkBrief) in Hb as (k & f & Hf & Hpf & _).
    by apply (map_empty_filter_1 _ _ Hfiles k f Hf).
  - by apply (newProject_exists md5 Date_now_at w1 name p).
Qed.

End ProjectFiles.

Lemma getProjectFiles_lists_project_witness :
  exists l w',
    getProjectFiles clock_ms pid_A1 world_main = (Ok l, w') ∧
    (∀ b, b ∈ l ↔
          exists k f, files (db world_main) !! k = Some f
                      ∧ f_project f = pid_A1 ∧ b = mkBrief f) ∧
    projects (db w') =
      <[pid_A1 := with_last_modified (clock_ms 2) project_A1]>
        (projects (db world_main)) ∧
    files (db w') = files (db world_main) ∧
    settings (db w') = settings (db world_main) ∧
    changeLogs (db w') = changeLogs (db world_main).
Proof.
  apply (getProjectFiles_lists_project clock_ms world_main pid_A1 project_A1).
  reflexivity.
Defined.

Lemma getProjectFiles_twice_witness :
  exists l w1 w2,
    getProjectFiles clock_ms pid_A1 world_main = (Ok l, w1) ∧
    getProjectFiles clock_ms pid_A1 w1 = (Ok l, w2).
Proof.
  apply (getProjectFiles_twice clock_ms world_main pid_A1 project_A1).
  reflexivity.
Defined.

Lemma newProject_then_read_witness :
  projects (db {| db := empty_db; ticks := 0 |}) !! md5_table "A1" = None ∧
  exists b w1 l w2,
    newProject md5_table clock_ms "A1" {| db := empty_db; ticks := 0 |}
      = (Ok b, w1) ∧
    pb_id b = md5_table "A1" ∧ pb_name b = "A1" ∧
    getProjects w1 = (Ok l, w1) ∧ b ∈ l ∧
    getFileToRun (md5_table "A1") "q1" w1 = (Ok RunFalse, w1) ∧
    getProjectFiles clock_ms (md5_table "A1") w1 = (Ok [], w2) ∧
    newProject md5_table clock_ms "A1" w1 = (Throw ConstraintError, tick w1) ∧
    files (db w1) = files (db {| db := empty_db; ticks := 0 |}) ∧
    changeLogs (db w1) = changeLogs (db {| db := empty_db; ticks := 0 |}).
Proof.
  split; [reflexivity|].
  apply (newProject_then_read md5_table clock_ms
           {| db := empty_db; ticks := 0 |} "A1" "q1").
  - reflexivity.
  - reflexivity.
Defined.

(** ** Files read back *)

Lemma named_in_insert_pos (fs : gmap string FileStored) k f :
  (0 < named_in (f_name f) (f_project f) (<[k := f]> fs))%nat.
Proof.
  unfold named_in. rewrite map_filter_insert_True by done.
  assert (size (<[k := f]> (filter (fun kv : string * FileStored =>
            f_name kv.2 = f_name f ∧ f_project kv.2 = f_project f) fs)) ≠ 0)
    %nat; [|lia].
  apply map_size_ne_0_lookup_2 with k. rewrite lookup_insert_eq. by eexists.
Qed.

Section FilesReadBack.

Variable md5 : string -> string.
Variable Date_now_at : nat -> Z.
Variable atob : string -> option string.

(** X7.  After [writeFile] the record read back has the contents written,
    the digest of these contents as checksum (the empty string when the
    contents are undefined) and the time of the write; its id, project, name
    and open flag are kept and no other file and no project is written. *)
Theorem writeFile_then_readFile (w : World) (id : string)
    (contents : option string) (f : FileStored) :
  files (db w) !! id = Some f ->
  exists w1 g,
    writeFile md5 Date_now_at id contents w = (Ok tt, w1) ∧
    readFile id w1 = (Ok g, w1) ∧
    f_contents g = contents ∧
    f_checksum g = match contents with None => "" | Some c => md5 c end ∧
    f_last_modified g = Date_now_at (ticks w) ∧
    f_id g = f_id f ∧ f_project g = f_project f ∧ f_name g = f_name f ∧
    f_open g = f_open f ∧
    (∀ k, k ≠ id -> files (db w1) !! k = files (db w) !! k) ∧
    projects (db w1) = projects (db w).
Proof.
  intros Hf. eexists _, (written md5 contents (Date_now_at (ticks w)) f).
  split; [by apply writeFile_run|].
  split_and!; try reflexivity.
  - apply readFile_ok. cbn [db set_files files pushed set_changeLogs].
    rewrite lookup_alter_eq, Hf. reflexivity.
  - intros k Hk. cbn [db set_files files pushed set_changeLogs].
    by rewrite lookup_alter_ne.
Qed.

(** X8.  After [newFile] (without [base64]) in a stored project, under a
    name no record of the project has and an id that is free, the record read
    back under the returned id has the contents given, their digest as
    checksum and a closed tab; the brief is listed by [getProjectFiles]; a
    second [newFile] with the name throws "already exists" and writes
    nothing. *)
Theorem newFile_then_readFile (w : World) (pid name x : string)
    (contents2 : option string) (p : ProjectStored) :
  named_in name pid (files (db w)) = 0%nat ->
  projects (db w) !! pid = Some p ->
  files (db w) !! md5 (pid +:+ name) = None ->
  exists b w1 g l w2,
    newFile md5 Date_now_at atob pid name (Some x) false w = (Ok b, w1) ∧
    fb_id b = md5 (pid +:+ name) ∧
    readFile (fb_id b) w1 = (Ok g, w1) ∧
    f_contents g = Some x ∧ f_checksum g = md5 x ∧ f_open g = 0%N ∧
    f_name g = name ∧ f_project g = pid ∧ mkBrief g = b ∧
    getProjectFiles Date_now_at pid w1 = (Ok l, w2) ∧ b ∈ l ∧
    newFile md5 Date_now_at atob pid name contents2 false w1 =
      (Throw (FileAlreadyExists pid name), w1).
Proof.
  intros Hn Hp Hf.
  pose proof (newFile_run md5 Date_now_at atob w pid name (Some x) false _ p
                (decode_contents_plain atob _ w) Hn Hp Hf) as H1.
  cbv zeta in H1. cbn [default] in H1.
  set (f := created md5 pid name x (Date_now_at (ticks w))) in H1.
  set (w1 := {| db := _; ticks := _ |}) in H1.
  assert (files (db w1) = <[md5 (pid +:+ name) := f]> (files (db w))) as Hfs
    by reflexivity.
  assert (projects (db w1) !! pid = Some p) as Hp1 by exact Hp.
  eexists _, _, f, _, _. split; [exact H1|].
  split_and!; try reflexivity.
  - apply readFile_ok. rewrite Hfs. apply lookup_insert_eq.
  - by apply getProjectFiles_run.
  - apply (elem_of_listing mkBrief). exists (md5 (pid +:+ name)), f.
    split_and!; [|done..]. rewrite Hfs. apply lookup_insert_eq.
  - eapply newFile_exists; [apply decode_contents_plain|].
    rewrite Hfs. apply (named_in_insert_pos _ _ f).
Qed.

(** X9.  [renameFile] keeps the id: the record is read back under the id it
    had, with the new name and the contents, checksum and project it had;
    nothing is stored under the id derived from the new name unless it was
    there before. *)
Theorem renameFile_keeps_id (w : World) (fid newName : string)
    (f : FileStored) :
  files (db w) !! fid = Some f ->
  exists w1 g,
    renameFile fid newName w = (Ok tt, w1) ∧
    readFile fid w1 = (Ok g, w1) ∧
    f_name g = newName ∧ f_id g = f_id f ∧ f_project g = f_project f ∧
    f_contents g = f_contents f ∧ f_checksum g = f_checksum f ∧
    f_last_modified g = f_last_modified f ∧
    (∀ k, k ≠ fid -> files (db w1) !! k = files (db w) !! k).
Proof.
  intros Hf. eexists _, (renamed newName f).
  split; [by apply renameFile_run|].
  split_and!; try reflexivity.
  - apply readFile_ok.
    cbn [db set_db set_files files pushed set_changeLogs].
    rewrite lookup_alter_eq, Hf. reflexivity.
  - intros k Hk. cbn [db set_db set_files files pushed set_changeLogs].
    by rewrite lookup_alter_ne.
Qed.

(** X10.  [renameFile] does not check the new name: renaming a file to the
    name of another file of its project succeeds and leaves two records with
    the same name and project, after which [newFile] with that name throws
    "already exists". *)
Theorem renameFile_onto_existing_name (w : World) (fid gid : string)
    (f g : FileStored) (contents : option string) :
  files (db w) !! fid = Some f ->
  files (db w) !! gid = Some g ->
  fid ≠ gid ->
  f_project g = f_project f ->
  exists w1,
    renameFile fid (f_name g) w = (Ok tt, w1) ∧
    (2 <= named_in (f_name g) (f_project f) (files (db w1)))%nat ∧
    newFile md5 Date_now_at atob (f_project f) (f_name g) contents false w1 =
      (Throw (FileAlreadyExists (f_project f) (f_name g)), w1).
Proof.
  intros Hf Hg Hne Hproj.
  pose proof (renameFile_run w fid (f_name g) f Hf) as H1.
  set (w1 := set_db _ w) in H1.
  assert (files (db w1) = <[fid := renamed (f_name g) f]> (files (db w)))
    as Hfs by (by apply alter_present).
  assert (2 <= named_in (f_name g) (f_project f) (files (db w1)))%nat as H2.
  { rewrite Hfs. unfold named_in.
    rewrite map_filter_insert_True by done.
    set (m := filter _ (files (db w))).
    assert (m !! gid = Some g) as Hm by (by apply map_lookup_filter_Some).
    assert (size (delete fid m) ≠ 0)%nat as Hs.
    { apply map_size_ne_0_lookup_2 with gid.
      rewrite lookup_delete_ne by done. by eexists. }
    rewrite <- insert_delete_eq.
    rewrite map_size_insert_None by apply lookup_delete_eq. lia. }
  exists w1. split_and!; [done..|].
  eapply newFile_exists; [apply decode_contents_plain|]. lia.
Qed.

End FilesReadBack.

Definition fid_util : string := "441c1b0a05d844ec43f512c2eba790c0".

Definition file_util : FileStored :=
  {| f_id := fid_util; f_project := pid_A1; f_name := "q1/util.c";
     f_contents := Some "Y";
     f_checksum := "57cec4137b614c87cb4e24a3d003a3e0";
     f_last_modified := 1500000000002; f_open := 0 |}.

(** Project A1 with the files q1/main.c and q1/util.c. *)
Definition world_two : World :=
  {| db := {| files := <[fid_util := file_util]> {[ fid_main := file_main ]};
              projects := {[ pid_A1 := project_A1 ]};
              settings := ∅;
              changeLogs :=
                {| rows := [(1%N, with_id 1 (new_entry pid_A1 "q1/main.c"
                                               (Some "X")));
                            (2%N, with_id 2 (new_entry pid_A1 "q1/util.c"
                                               (Some "Y")))];
                   keygen := 3 |} |};
     ticks := 3 |}.

Example world_two_reached :
  newFile md5_table clock_ms no_atob pid_A1 "q1/util.c" (Some "Y") false
    world_main = (Ok (mkBrief file_util), world_two).
Proof. vm_compute. reflexivity. Qed.

Lemma writeFile_then_readFile_witness :
  exists w1 g,
    writeFile md5_table clock_ms fid_main None world_main = (Ok tt, w1) ∧
    readFile fid_main w1 = (Ok g, w1) ∧
    f_contents g = None ∧ f_checksum g = "" ∧
    f_last_modified g = clock_ms 2 ∧
    f_id g = fid_main ∧ f_project g = pid_A1 ∧ f_name g = "q1/main.c" ∧
    f_open g = 0%N ∧
    (∀ k, k ≠ fid_main ->
          files (db w1) !! k = files (db world_main) !! k) ∧
    projects (db w1) = projects (db world_main).
Proof.
  apply (writeFile_then_readFile md5_table clock_ms world_main fid_main None
           file_main).
  reflexivity.
Defined.

Lemma newFile_then_readFile_witness :
  exists b w1 g l w2,
    newFile md5_table clock_ms no_atob pid_A1 "q1/util.c" (Some "Y") false
      world_main = (Ok b, w1) ∧
    fb_id b = fid_util ∧
    readFile (fb_id b) w1 = (Ok g, w1) ∧
    f_contents g = Some "Y" ∧
    f_checksum g = "57cec4137b614c87cb4e24a3d003a3e0" ∧ f_open g = 0%N ∧
    f_name g = "q1/util.c" ∧ f_project g = pid_A1 ∧ mkBrief g = b ∧
    getProjectFiles clock_ms pid_A1 w1 = (Ok l, w2) ∧ b ∈ l ∧
    newFile md5_table clock_ms no_atob pid_A1 "q1/util.c" None false w1 =
      (Throw (FileAlreadyExists pid_A1 "q1/util.c"), w1).
Proof.
  apply (newFile_then_readFile md5_table clock_ms no_atob world_main pid_A1
           "q1/util.c" "Y" None project_A1).
  - vm_compute. reflexivity.
  - reflexivity.
  - reflexivity.
Defined.

Lemma renameFile_keeps_id_witness :
  exists w1 g,
    renameFile fid_main "q1/util.c" world_main = (Ok tt, w1) ∧
    readFile fid_main w1 = (Ok g, w1) ∧
    f_name g = "q1/util.c" ∧ f_id g = fid_main ∧ f_project g = pid_A1 ∧
    f_contents g = Some "X" ∧
    f_checksum g = "02129bb861061d1a052c592e2dc6b383" ∧
    f_last_modified g = 1500000000001%Z ∧
    (∀ k, k ≠ fid_main ->
          files (db w1) !! k = files (db world_main) !! k).
Proof.
  apply (renameFile_keeps_id world_main fid_main "q1/util.c" file_main).
  reflexivity.
Defined.

Lemma renameFile_onto_existing_name_witness :
  exists w1,
    renameFile fid_main "q1/util.c" world_two = (Ok tt, w1) ∧
    (2 <= named_in "q1/util.c" pid_A1 (files (db w1)))%nat ∧
    newFile md5_table clock_ms no_atob pid_A1 "q1/util.c" (Some "Z") false
      w1 = (Throw (FileAlreadyExists pid_A1 "q1/util.c"), w1).
Proof.
  apply (renameFile_onto_existing_name md5_table clock_ms no_atob world_two
           fid_main fid_util file_main file_util (Some "Z")).
  - reflexivity.
  - reflexivity.
  - discriminate.
  - reflexivity.
Defined.

(** ** Open tabs and the file to run *)

Section TabsAndRuns.

Variable md5 : string -> string.
Variable Date_now_at : nat -> Z.
Variable atob : string -> option string.

(** X11.  [addOpenTab] and [removeOpenTab] set the open flag of the record
    under [fid] and nothing else; their project and question arguments are
    not used.  After [addOpenTab] the file is among the open tabs of the
    project it belongs to; after [removeOpenTab] the open tabs of that
    project are the other records of the project that were open.  Neither
    writes a project or a change-log entry. *)
Theorem open_tabs_follow_flag (w : World) (proj question question' fid : string)
    (f : FileStored) :
  files (db w) !! fid = Some f ->
  exists w1 l1 w2 l2,
    addOpenTab proj question fid w = (Ok tt, w1) ∧
    files (db w1) = <[fid := set_open 1 f]> (files (db w)) ∧
    getOpenTabs (f_project f) question' w1 = (Ok l1, w1) ∧
    mkBrief (set_open 1 f) ∈ l1 ∧
    removeOpenTab proj question fid w1 = (Ok tt, w2) ∧
    files (db w2) = <[fid := set_open 0 f]> (files (db w)) ∧
    getOpenTabs (f_project f) question' w2 = (Ok l2, w2) ∧
    (∀ b, b ∈ l2 ↔
          exists k g, k ≠ fid ∧ files (db w) !! k = Some g ∧
                      f_project g = f_project f ∧ f_open g = 1%N ∧
                      b = mkBrief g) ∧
    projects (db w2) = projects (db w) ∧
    changeLogs (db w2) = changeLogs (db w).
Proof.
  intros Hf.
  set (w1 := set_db (set_files (alter (set_open 1) fid)) w).
  set (w2 := set_db (set_files (alter (set_open 0) fid)) w1).
  assert (files (db w1) = <[fid := set_open 1 f]> (files (db w))) as Hfs1
    by (by apply alter_present).
  assert (files (db w2) = <[fid := set_open 0 f]> (files (db w))) as Hfs2.
  { assert (files (db w2) = alter (set_open 0) fid (files (db w1))) as ->
      by reflexivity.
    rewrite Hfs1. erewrite alter_present by apply lookup_insert_eq.
    by rewrite insert_insert_eq. }
  eexists w1, _, w2, _. split_and!; try reflexivity; try done.
  - apply (elem_of_listing mkBrief). exists fid, (set_open 1 f).
    split_and!; [|done..]. rewrite Hfs1. apply lookup_insert_eq.
  - intros b.
    rewrite (elem_of_listing mkBrief
               (fun kv => f_project kv.2 = f_project f ∧ f_open kv.2 = 1%N)).
    rewrite Hfs2. split.
    + intros (k & g & Hg & [Hp Ho] & ->).
      destruct (decide (k = fid)) as [->|Hne].
      * rewrite lookup_insert_eq in Hg. injection Hg as <-. done.
      * rewrite lookup_insert_ne in Hg by done. by exists k, g.
    + intros (k & g & Hne & Hg & Hp & Ho & ->). exists k, g.
      by rewrite lookup_insert_ne.
Qed.

(** X12.  After [setFileToRun] on a stored project [getFileToRun] returns
    the name stored for the question, and false when that name is the empty
    string.  The question "__proto__" is the exception: unless [runs] has
    an own entry of that name nothing is stored and [getFileToRun] returns
    the prototype.  The results for the other questions, the other
    projects, the files and the change log are as before. *)
Theorem setFileToRun_then_getFileToRun (w : World)
    (pid question filename question' : string) (p : ProjectStored) :
  projects (db w) !! pid = Some p ->
  question' ≠ question ->
  exists w1,
    setFileToRun pid question filename w = (Ok tt, w1) ∧
    getFileToRun pid question w1 =
      (Ok (if (question =? "__proto__")%string
              && negb (defined (p_runs p !! question))
           then RunInherited "__proto__"
           else match filename with "" => RunFalse | _ => RunName filename end),
       w1) ∧
    (getFileToRun pid question' w1).1 = (getFileToRun pid question' w).1 ∧
    (∀ q, q ≠ pid -> projects (db w1) !! q = projects (db w) !! q) ∧
    files (db w1) = files (db w) ∧ changeLogs (db w1) = changeLogs (db w).
Proof.
  intros Hp Hq.
  pose proof (setFileToRun_run w pid question filename p Hp) as H1.
  set (w1 := set_db _ w) in H1.
  set (p1 := with_runs (assign_run question filename (p_runs p)) p).
  assert (projects (db w1) !! pid = Some p1) as Hp1.
  { subst w1. cbn [db set_db set_projects projects].
    by rewrite lookup_alter_eq, Hp. }
  assert (∀ q wa pa, projects (db wa) !! pid = Some pa ->
            getFileToRun pid q wa = (Ok (read_run (p_runs pa) q), wa)) as Hget.
  { intros q wa pa Hpa. unfold getFileToRun. apply transaction_ok.
    erewrite await_ok by (apply getProject_ok; exact Hpa). reflexivity. }
  exists w1. split_and!; try done.
  - rewrite (Hget _ _ p1 Hp1). f_equal. f_equal.
    cbn [p1 with_runs p_runs]. unfold assign_run, read_run.
    destruct (String.eqb_spec question "__proto__") as [->|Hn]; cbn [andb].
    + destruct (p_runs p !! "__proto__") eqn:Ho; cbn [defined negb].
      * rewrite lookup_insert_eq. by destruct filename.
      * by rewrite Ho.
    + rewrite lookup_insert_eq. by destruct filename.
  - rewrite (Hget _ _ p1 Hp1), (Hget _ _ p Hp).
    cbn [fst p1 with_runs p_runs]. f_equal. unfold read_run, assign_run.
    destruct (_ && _); [done|]. by rewrite lookup_insert_ne.
  - intros q Hne. subst w1. cbn [db set_db set_projects projects].
    by rewrite lookup_alter_ne.
Qed.

(** X13.  For a project id that is not stored, [getProjectFiles],
    [getFileToRun] and [setFileToRun] throw "project doesn't exist" and write
    nothing, [newFile] throws as well (this error, or "already exists" when
    a record without project has the name), and [deleteProject] returns
    normally. *)
Theorem unknown_project (w : World) (pid question name : string)
    (contents : option string) :
  projects (db w) !! pid = None ->
  getProjectFiles Date_now_at pid w = (Throw (ProjectDoesNotExist pid), w) ∧
  getFileToRun pid question w = (Throw (ProjectDoesNotExist pid), w) ∧
  setFileToRun pid question name w = (Throw (ProjectDoesNotExist pid), w) ∧
  (exists e,
     newFile md5 Date_now_at atob pid name contents false w = (Throw e, w) ∧
     (e = ProjectDoesNotExist pid ∨ e = FileAlreadyExists pid name)) ∧
  (exists w', deleteProject pid w = (Ok tt, w') ∧
              projects (db w') = projects (db w)) ∧
  is_NotFound (ProjectDoesNotExist pid) = true.
Proof.
  intros Hp. split_and!.
  - by apply getProjectFiles_missing.
  - unfold getFileToRun.
    erewrite transaction_throw; [by rewrite world_eta|].
    erewrite await_throw by (by apply getProject_missing). done.
  - by apply setFileToRun_missing.
  - destruct (named_in name pid (files (db w))) as [|n] eqn:Hn.
    + eexists. split; [|by left].
      eapply newFile_no_project; [apply decode_contents_plain|done..].
    + eexists. split; [|by right].
      eapply newFile_exists; [apply decode_contents_plain|lia].
  - eexists. split; [apply deleteProject_run|].
    cbn [db set_db set_files set_projects projects]. by apply delete_id.
  - done.
Qed.

End TabsAndRuns.

Lemma open_tabs_follow_flag_witness :
  exists w1 l1 w2 l2,
    addOpenTab "no such project" "q9" fid_main world_two = (Ok tt, w1) ∧
    files (db w1) = <[fid_main := set_open 1 file_main]> (files (db world_two)) ∧
    getOpenTabs pid_A1 "q1" w1 = (Ok l1, w1) ∧
    mkBrief (set_open 1 file_main) ∈ l1 ∧
    removeOpenTab "no such project" "q9" fid_main w1 = (Ok tt, w2) ∧
    files (db w2) = <[fid_main := set_open 0 file_main]> (files (db world_two)) ∧
    getOpenTabs pid_A1 "q1" w2 = (Ok l2, w2) ∧
    (∀ b, b ∈ l2 ↔
          exists k g, k ≠ fid_main ∧ files (db world_two) !! k = Some g ∧
                      f_project g = pid_A1 ∧ f_open g = 1%N ∧
                      b = mkBrief g) ∧
    projects (db w2) = projects (db world_two) ∧
    changeLogs (db w2) = changeLogs (db world_two).
Proof.
  apply (open_tabs_follow_flag world_two "no such project" "q9" "q1" fid_main
           file_main).
  reflexivity.
Defined.

Lemma setFileToRun_then_getFileToRun_witness :
  exists w1,
    setFileToRun pid_A1 "__proto__" "q1/main.c" world_main = (Ok tt, w1) ∧
    getFileToRun pid_A1 "__proto__" w1 = (Ok (RunInherited "__proto__"), w1) ∧
    (getFileToRun pid_A1 "q2" w1).1 = (getFileToRun pid_A1 "q2" world_main).1 ∧
    (∀ q, q ≠ pid_A1 ->
          projects (db w1) !! q = projects (db world_main) !! q) ∧
    files (db w1) = files (db world_main) ∧
    changeLogs (db w1) = changeLogs (db world_main).
Proof.
  apply (setFileToRun_then_getFileToRun world_main pid_A1 "__proto__"
           "q1/main.c" "q2" project_A1).
  - reflexivity.
  - discriminate.
Defined.

Lemma unknown_project_witness :
  projects (db world_main) !! "0123" = None ∧
  getProjectFiles clock_ms "0123" world_main =
    (Throw (ProjectDoesNotExist "0123"), world_main) ∧
  getFileToRun "0123" "q1" world_main =
    (Throw (ProjectDoesNotExist "0123"), world_main) ∧
  setFileToRun "0123" "q1" "q1/main.c" world_main =
    (Throw (ProjectDoesNotExist "0123"), world_main) ∧
  (exists e,
     newFile md5_table clock_ms no_atob "0123" "q1/main.c" None false
       world_main = (Throw e, world_main) ∧
     (e = ProjectDoesNotExist "0123" ∨
      e = FileAlreadyExists "0123" "q1/main.c")) ∧
  (exists w', deleteProject "0123" world_main = (Ok tt, w') ∧
              projects (db w') = projects (db world_main)) ∧
  is_NotFound (ProjectDoesNotExist "0123") = true.
Proof.
  split; [reflexivity|].
  apply (unknown_project md5_table clock_ms no_atob world_main "0123" "q1"
           "q1/main.c" None).
  reflexivity.
Defined.

(** ** Popping and listing the change log *)

Lemma popChangeLog_value w :
  popChangeLog w =
  (Ok (match top_row (changeLogs (db w)) with
       | Some top =>
           match cl_id top with
           | Some k => if (k =? 0)%N then None else Some top
           | None => None
           end
       | None => None
       end),
   set_db (set_changeLogs pop_log) w).
Proof.
  destruct w as [[fs ps ss t] n].
  unfold popChangeLog, transaction, await, set_db, set_changeLogs, pop_log.
  rewrite topChangeLog_run. cbn [db changeLogs files projects settings ticks].
  destruct (top_row t) as [top|]; [|done].
  destruct (cl_id top) as [k|]; [|done].
  by destruct (k =? 0)%N.
Qed.

Lemma log_wf_snoc_inv t base k e :
  log_wf t -> rows t = base ++ [(k, e)] ->
  (0 < k < keygen t)%N ∧ log_wf {| rows := base; keygen := keygen t |}.
Proof.
  intros (Hs & Hk & Hg) Hr. rewrite Hr in Hs, Hk.
  apply Forall_app in Hk as [Hk1 Hk2]. apply Forall_inv in Hk2.
  split; [done|]. split_and!; cbn [rows keygen]; [|done..].
  by apply StronglySorted_app_1_l in Hs.
Qed.

Lemma pop_log_take t :
  log_wf t ->
  pop_log t =
  {| rows := take (pred (length (rows t))) (rows t); keygen := keygen t |}.
Proof.
  destruct t as [rs g]. intros Hwf.
  destruct rs as [|[k e] base _] using rev_ind; [done|].
  rewrite pop_log_snoc by done. cbn [rows keygen]. f_equal.
  rewrite length_app. cbn [length]. rewrite Nat.add_1_r. cbn [pred].
  by rewrite take_app_length.
Qed.

Lemma popped_value t :
  log_wf t ->
  match top_row t with
  | Some top =>
      match cl_id top with
      | Some k => if (k =? 0)%N then None else Some top
      | None => None
      end
  | None => None
  end = top_row t.
Proof.
  destruct t as [rs g]. intros Hwf.
  destruct rs as [|[k e] base _] using rev_ind; [done|].
  destruct (log_wf_snoc_inv _ base k e Hwf eq_refl) as [Hk _].
  rewrite top_row_snoc. cbn [cl_id with_id keygen] in *.
  destruct (N.eqb_spec k 0); [lia|done].
Qed.

Lemma newest_first_take t :
  newest_first {| rows := take (pred (length (rows t))) (rows t);
                  keygen := keygen t |} = tail (newest_first t).
Proof.
  destruct t as [rs g]. unfold newest_first. cbn [rows keygen].
  destruct rs as [|r base _] using rev_ind; [done|].
  rewrite length_app. cbn [length]. rewrite Nat.add_1_r. cbn [pred].
  rewrite take_app_length. by rewrite fmap_snoc, reverse_snoc.
Qed.

Lemma pop_log_wf t : log_wf t -> log_wf (pop_log t).
Proof.
  intros Hwf. unfold pop_log. destruct (top_row t) as [top|]; [|done].
  destruct (cl_id top) as [k|]; [|done].
  destruct (k =? 0)%N; [done|]. by apply delete_row_wf.
Qed.

(** X14.  On a well-formed log [popChangeLog] returns the newest entry and
    removes its row and no other; on a log without rows it returns false and
    changes nothing.  The key generator, the files and the projects are not
    written. *)
Theorem popChangeLog_removes_newest (w : World) :
  log_wf (changeLogs (db w)) ->
  let t := changeLogs (db w) in
  exists w',
    popChangeLog w = (Ok (top_row t), w') ∧
    getChangeLogs w' = (Ok (tail (newest_first t)), w') ∧
    rows (changeLogs (db w')) = take (pred (length (rows t))) (rows t) ∧
    keygen (changeLogs (db w')) = keygen t ∧
    (rows t = [] -> w' = w) ∧
    log_wf (changeLogs (db w')) ∧
    files (db w') = files (db w) ∧ projects (db w') = projects (db w) ∧
    settings (db w') = settings (db w).
Proof.
  intros Hwf t. exists (set_db (set_changeLogs pop_log) w).
  cbn [db set_db set_changeLogs changeLogs files projects settings].
  fold t. split_and!; try reflexivity.
  - rewrite popChangeLog_value. by rewrite popped_value.
  - unfold getChangeLogs. apply transaction_ok.
    unfold gets. cbn [db set_db set_changeLogs changeLogs].
    fold t. by rewrite pop_log_take, newest_first_take.
  - by rewrite pop_log_take.
  - by rewrite pop_log_take.
  - intros Hr. destruct w as [[fs ps ss [rs g]] n]. cbn in Hr. by subst rs.
  - by apply pop_log_wf.
Qed.

(** X15.  On a well-formed log a push of a change without [id] followed by
    a pop gives the change back under the key it was stored with, and leaves
    the rows the push had kept: all the rows from before, unless the push
    coalesced.  The key is not given out again. *)
Theorem pushChangeLog_then_popChangeLog (w : World) (change : ChangeLog) :
  log_wf (changeLogs (db w)) ->
  cl_id change = None ->
  let t := changeLogs (db w) in
  let key := keygen t in
  exists w1 w2,
    pushChangeLog change w = (Ok key, w1) ∧
    getChangeLogs w1 =
      (Ok (with_id key change :: newest_first (coalesce change t)), w1) ∧
    popChangeLog w1 = (Ok (Some (with_id key change)), w2) ∧
    rows (changeLogs (db w2)) = rows (coalesce change t) ∧
    (cl_type change ≠ "editFile" ->
     rows (changeLogs (db w2)) = rows t) ∧
    keygen (changeLogs (db w2)) = (key + 1)%N.
Proof.
  intros Hwf Hid t key.
  pose proof (pushChangeLog_run change w) as H1.
  rewrite push_log_fresh in H1 by done. cbn [fst] in H1. fold t key in H1.
  set (w1 := set_db _ w) in H1.
  assert (changeLogs (db w1) =
          {| rows := rows (coalesce change t)
                     ++ [(key, with_id key change)];
             keygen := (key + 1)%N |}) as Ht1.
  { subst w1. cbn [db set_db set_changeLogs changeLogs].
    by rewrite push_log_fresh. }
  assert (log_wf (changeLogs (db w1))) as Hwf1.
  { subst w1. cbn [db set_db set_changeLogs changeLogs].
    by apply push_log_wf. }
  assert (pop_log (changeLogs (db w1)) =
          {| rows := rows (coalesce change t); keygen := (key + 1)%N |})
    as Hpop.
  { rewrite Ht1 in Hwf1 |- *. by apply pop_log_snoc. }
  exists w1, (set_db (set_changeLogs pop_log) w1). split_and!.
  - exact H1.
  - unfold getChangeLogs. apply transaction_ok. unfold gets.
    rewrite Ht1. unfold newest_first. cbn [rows].
    by rewrite fmap_snoc, reverse_snoc.
  - rewrite popChangeLog_value, popped_value by done.
    rewrite Ht1, top_row_snoc. reflexivity.
  - cbn [db set_db set_changeLogs changeLogs]. by rewrite Hpop.
  - intros Hty. cbn [db set_db set_changeLogs changeLogs].
    by rewrite Hpop, coalesce_other.
  - cbn [db set_db set_changeLogs changeLogs]. by rewrite Hpop.
Qed.

Lemma popChangeLog_removes_newest_witness :
  exists w',
    popChangeLog world_edited = (Ok (Some (with_id 2 edit_main)), w') ∧
    getChangeLogs w' =
      (Ok [with_id 1 (new_entry pid_A1 "q1/main.c" (Some "X"))], w') ∧
    rows (changeLogs (db w')) =
      [(1%N, with_id 1 (new_entry pid_A1 "q1/main.c" (Some "X")))] ∧
    keygen (changeLogs (db w')) = 3%N ∧
    (rows (changeLogs (db world_edited)) = [] -> w' = world_edited) ∧
    log_wf (changeLogs (db w')) ∧
    files (db w') = files (db world_edited) ∧
    projects (db w') = projects (db world_edited) ∧
    settings (db w') = settings (db world_edited).
Proof.
  apply (popChangeLog_removes_newest world_edited).
  apply log_wf_world_edited.
Defined.

Lemma pushChangeLog_then_popChangeLog_witness :
  exists w1 w2,
    pushChangeLog edit_util world_edited = (Ok 3%N, w1) ∧
    getChangeLogs w1 =
      (Ok [with_id 3 edit_util;
           with_id 1 (new_entry pid_A1 "q1/main.c" (Some "X"))], w1) ∧
    popChangeLog w1 = (Ok (Some (with_id 3 edit_util)), w2) ∧
    rows (changeLogs (db w2)) =
      [(1%N, with_id 1 (new_entry pid_A1 "q1/main.c" (Some "X")))] ∧
    (cl_type edit_util ≠ "editFile" ->
     rows (changeLogs (db w2)) = rows (changeLogs (db world_edited))) ∧
    keygen (changeLogs (db w2)) = 4%N.
Proof.
  apply (pushChangeLog_then_popChangeLog world_edited edit_util).
  - apply log_wf_world_edited.
  - reflexivity.
Defined.

(** ** The invariant of the database

    What every method of the class keeps: a record is stored under its own
    id; the project of a file is stored; the checksum of a file is the digest
    of its contents; the id of a project is the digest of its name; the
    change log is well formed. *)

Definition keeps {A} (I : StorageDB -> Prop) (m : Promise A) : Prop :=
  ∀ w r w', m w = (r, w') -> I (db w) -> I (db w').

Lemma keeps_transaction_throw {A} (I : StorageDB -> Prop) (body : Promise A)
    w e w' :
  transaction body w = (Throw e, w') -> I (db w) -> I (db w').
Proof. intros H HI. by rewrite (transaction_rollback _ _ _ _ H). Qed.

Lemma keeps_await {A B} (I : StorageDB -> Prop) (m : Promise A)
    (k : A -> Promise B) :
  keeps I m -> (∀ a, keeps I (k a)) -> keeps I (await m k).
Proof.
  intros Hm Hk w r w' H HI. unfold await in H.
  destruct (m w) as [[a|e] w1] eqn:Hmw.
  - eapply Hk; [exact H|]. by eapply Hm.
  - injection H as <- <-. by eapply Hm.
Qed.

Lemma keeps_transaction {A} (I : StorageDB -> Prop) (body : Promise A) :
  keeps I body -> keeps I (transaction body).
Proof.
  intros Hb w r w' H HI. unfold transaction in H.
  destruct (body w) as [[a|e] w1] eqn:Hbw.
  - injection H as <- <-. by eapply Hb.
  - by injection H as <- <-.
Qed.

Lemma keeps_resolve {A} (I : StorageDB -> Prop) (a : A) : keeps I (resolve a).
Proof. by intros w r w' [= <- <-]. Qed.

Lemma keeps_for_of {A} (I : StorageDB -> Prop) (body : A -> Promise unit)
    (l : list A) :
  (∀ x, keeps I (body x)) -> keeps I (for_of l body).
Proof.
  intros Hb. induction l as [|x l IH]; cbn [for_of].
  - apply keeps_resolve.
  - apply keeps_await; [apply Hb|]. intros _. apply IH.
Qed.

Lemma map_Forall_alter {K A} `{Countable K} (P : K -> A -> Prop) (g : A -> A)
    (m : gmap K A) (k : K) :
  map_Forall P m -> (∀ x, m !! k = Some x -> P k x -> P k (g x)) ->
  map_Forall P (alter g k m).
Proof.
  intros Hm Hg j y Hy. apply lookup_alter_Some in Hy as [(-> & x & Hx & ->)|[_ Hy]].
  - apply Hg; [done|]. by apply Hm.
  - by apply Hm.
Qed.

Section Invariant.

Variable md5 : string -> string.
Variable Date_now_at : nat -> Z.
Variable atob : string -> option string.

Definition file_ok (ps : gmap string ProjectStored) (k : string)
    (f : FileStored) : Prop :=
  f_id f = k ∧ is_Some (ps !! f_project f) ∧
  f_checksum f = checksum_of md5 (f_contents f).

Definition project_ok (k : string) (p : ProjectStored) : Prop :=
  p_id p = k ∧ k = md5 (p_name p).

Definition db_wf (d : StorageDB) : Prop :=
  map_Forall (file_ok (projects d)) (files d) ∧
  map_Forall project_ok (projects d) ∧
  log_wf (changeLogs d).

Lemma db_wf_pushed change d :
  cl_id change = None -> db_wf d -> db_wf (pushed change d).
Proof.
  intros Hid (Hf & Hp & Hl). split_and!; [done..|].
  by apply push_log_wf.
Qed.

Lemma db_wf_alter_file k (g : FileStored -> FileStored) d :
  (∀ f, f_id (g f) = f_id f ∧ f_project (g f) = f_project f ∧
        (f_checksum f = checksum_of md5 (f_contents f) ->
         f_checksum (g f) = checksum_of md5 (f_contents (g f)))) ->
  db_wf d -> db_wf (set_files (alter g k) d).
Proof.
  intros Hg (Hf & Hp & Hl). split_and!; [|done..].
  cbn [set_files files projects]. apply map_Forall_alter; [done|].
  intros f _ (Hid & Hpr & Hc). destruct (Hg f) as (Hg1 & Hg2 & Hg3).
  split_and!; [congruence|by rewrite Hg2|by apply Hg3].
Qed.

Lemma db_wf_delete_file k d : db_wf d -> db_wf (set_files (delete k) d).
Proof.
  intros (Hf & Hp & Hl). split_and!; [|done..].
  by apply map_Forall_delete.
Qed.

Lemma db_wf_insert_file k f d :
  file_ok (projects d) k f -> db_wf d -> db_wf (set_files (insert k f) d).
Proof.
  intros Hk (Hf & Hp & Hl). split_and!; [|done..].
  by apply map_Forall_insert_2.
Qed.

Lemma files_ok_mono (ps ps' : gmap string ProjectStored)
    (fs : gmap string FileStored) :
  (∀ q, is_Some (ps !! q) -> is_Some (ps' !! q)) ->
  map_Forall (file_ok ps) fs -> map_Forall (file_ok ps') fs.
Proof.
  intros Hmono Hf k f Hk. destruct (Hf k f Hk) as (? & ? & ?).
  split_and!; [done| |done]. by apply Hmono.
Qed.

Lemma db_wf_alter_project k (g : ProjectStored -> ProjectStored) d :
  (∀ p, projects d !! k = Some p ->
        p_id (g p) = p_id p ∧ p_name (g p) = p_name p) ->
  db_wf d -> db_wf (set_projects (alter g k) d).
Proof.
  intros Hg (Hf & Hp & Hl). split_and!; [| |done].
  - eapply files_ok_mono; [|done]. intros q. cbn [set_projects projects].
    by rewrite lookup_alter_is_Some.
  - cbn [set_projects projects]. apply map_Forall_alter; [done|].
    intros p Hk [Hid Hn]. unfold project_ok.
    destruct (Hg p Hk) as [-> ->]. by split.
Qed.

Lemma db_wf_insert_project k p d :
  project_ok k p -> db_wf d -> db_wf (set_projects (insert k p) d).
Proof.
  intros Hk (Hf & Hp & Hl). split_and!; [| |done].
  - eapply files_ok_mono; [|done]. intros q Hq. cbn [set_projects projects].
    rewrite lookup_insert_is_Some. destruct (decide (k = q)); auto.
  - by apply map_Forall_insert_2.
Qed.

Lemma db_wf_delete_project pid d :
  db_wf d ->
  db_wf (set_files (filter (fun kv => f_project kv.2 ≠ pid))
           (set_projects (delete pid) d)).
Proof.
  intros (Hf & Hp & Hl). split_and!; [| |done].
  - cbn [set_files set_projects files projects]. intros k f Hk.
    apply map_lookup_filter_Some in Hk as [Hk Hne]. cbn [snd] in Hne.
    destruct (Hf k f Hk) as (? & ? & ?). split_and!; [done| |done].
    by rewrite lookup_delete_ne.
  - by apply map_Forall_delete.
Qed.

Lemma db_wf_set_log (g : LogTable -> LogTable) d :
  (log_wf (changeLogs d) -> log_wf (g (changeLogs d))) ->
  db_wf d -> db_wf (set_changeLogs g d).
Proof. intros Hg (Hf & Hp & Hl). split_and!; [done..|]. by apply Hg. Qed.

Lemma db_wf_set_settings g d : db_wf d -> db_wf (set_settings g d).
Proof. done. Qed.

End Invariant.

Section InvariantKept.

Variable md5 : string -> string.
Variable Date_now_at : nat -> Z.
Variable atob : string -> option string.

Local Abbreviation wf := (db_wf md5).

Lemma keeps_pushChangeLog change :
  cl_id change = None -> keeps wf (pushChangeLog change).
Proof.
  intros Hid w r w' H Hwf. rewrite pushChangeLog_run in H.
  injection H as _ <-. by apply (db_wf_pushed md5).
Qed.

Lemma keeps_popChangeLog : keeps wf popChangeLog.
Proof.
  intros w r w' H Hwf. rewrite popChangeLog_value in H. injection H as _ <-.
  apply (db_wf_set_log md5); [apply pop_log_wf|done].
Qed.

Lemma keeps_clearChangeLogs : keeps wf clearChangeLogs.
Proof.
  intros w r w' H Hwf. rewrite clearChangeLogs_run in H. injection H as _ <-.
  apply (db_wf_set_log md5); [|done]. intros (_ & _ & Hg).
  split_and!; [constructor|constructor|done].
Qed.

Lemma keeps_writeFile fid contents :
  keeps wf (writeFile md5 Date_now_at fid contents).
Proof.
  intros w r w' H Hwf. destruct (files (db w) !! fid) as [f|] eqn:Hf.
  - rewrite (writeFile_run _ _ _ _ _ _ Hf) in H. injection H as _ <-.
    cbn [db]. apply db_wf_alter_file; [done|]. by apply db_wf_pushed.
  - rewrite writeFile_missing in H by done. by injection H as _ <-.
Qed.

Lemma keeps_renameFile fid newName : keeps wf (renameFile fid newName).
Proof.
  intros w r w' H Hwf. destruct (files (db w) !! fid) as [f|] eqn:Hf.
  - rewrite (renameFile_run _ _ _ _ Hf) in H. injection H as _ <-.
    cbn [db set_db]. do 2 (apply db_wf_pushed; [done|]).
    by apply db_wf_alter_file.
  - rewrite renameFile_missing in H by done. by injection H as _ <-.
Qed.

Lemma keeps_deleteFile id : keeps wf (deleteFile id).
Proof.
  intros w r w' H Hwf. destruct (files (db w) !! id) as [f|] eqn:Hf.
  - destruct (projects (db w) !! f_project f) as [p|] eqn:Hp.
    + rewrite (deleteFile_run _ _ _ _ Hf Hp) in H. injection H as _ <-.
      cbn [db set_db]. apply db_wf_alter_project.
      * cbn [pushed set_changeLogs set_files projects].
        intros p0 Hp0. rewrite Hp in Hp0. by injection Hp0 as <-.
      * apply db_wf_pushed; [done|]. by apply db_wf_delete_file.
    + rewrite (deleteFile_orphan _ _ _ Hf Hp) in H. by injection H as _ <-.
  - rewrite deleteFile_missing in H by done. by injection H as _ <-.
Qed.

Lemma keeps_newFile pid name contents base64 :
  keeps wf (newFile md5 Date_now_at atob pid name contents base64).
Proof.
  intros w r w' H Hwf.
  destruct (decode_contents atob (default "" contents) base64 w)
    as [[c|e] w0] eqn:Hd;
    pose proof (decode_contents_world _ _ _ _ _ _ Hd) as ->.
  2:{ rewrite (newFile_undecodable _ _ _ _ _ _ _ _ _ Hd) in H.
      by injection H as _ <-. }
  destruct (named_in name pid (files (db w))) as [|n] eqn:Hn.
  2:{ rewrite (newFile_exists _ _ _ _ _ _ _ _ _ Hd) in H by lia.
      by injection H as _ <-. }
  destruct (projects (db w) !! pid) as [p|] eqn:Hp.
  2:{ rewrite (newFile_no_project _ _ _ _ _ _ _ _ _ Hd Hn Hp) in H.
      by injection H as _ <-. }
  destruct (files (db w) !! md5 (pid +:+ name)) as [g|] eqn:Hf.
  { rewrite (newFile_key_in_use _ _ _ _ _ _ _ _ _ _ _ Hd Hn Hp Hf) in H.
    by injection H as _ <-. }
  rewrite (newFile_run _ _ _ _ _ _ _ _ _ _ Hd Hn Hp Hf) in H.
  injection H as _ <-. cbn [db].
  apply db_wf_pushed; [done|]. apply db_wf_insert_file; [|done].
  split_and!; [done| |done]. cbn [created f_project]. by rewrite Hp.
Qed.

Lemma keeps_newProject name : keeps wf (newProject md5 Date_now_at name).
Proof.
  intros w r w' H Hwf. destruct (projects (db w) !! md5 name) as [p|] eqn:Hp.
  - rewrite (newProject_exists _ _ _ _ _ Hp) in H. by injection H as _ <-.
  - rewrite (newProject_run _ _ _ _ Hp) in H. injection H as _ <-.
    cbn [db]. by apply db_wf_insert_project.
Qed.

Lemma keeps_deleteProject pid : keeps wf (deleteProject pid).
Proof.
  intros w r w' H Hwf. rewrite deleteProject_run in H. injection H as _ <-.
  by apply db_wf_delete_project.
Qed.

Lemma keeps_setFileToRun pid question filename :
  keeps wf (setFileToRun pid question filename).
Proof.
  intros w r w' H Hwf. destruct (projects (db w) !! pid) as [p|] eqn:Hp.
  - rewrite (setFileToRun_run _ _ _ _ _ Hp) in H. injection H as _ <-.
    by apply db_wf_alter_project.
  - rewrite setFileToRun_missing in H by done. by injection H as _ <-.
Qed.

Lemma keeps_addOpenTab proj question fid :
  keeps wf (addOpenTab proj question fid).
Proof.
  intros w r w' H Hwf. rewrite addOpenTab_run in H. injection H as _ <-.
  by apply db_wf_alter_file.
Qed.

Lemma keeps_removeOpenTab proj question fid :
  keeps wf (removeOpenTab proj question fid).
Proof.
  intros w r w' H Hwf. rewrite removeOpenTab_run in H. injection H as _ <-.
  by apply db_wf_alter_file.
Qed.

Lemma keeps_getProjectFiles pid : keeps wf (getProjectFiles Date_now_at pid).
Proof.
  intros w r w' H Hwf. destruct (projects (db w) !! pid) as [p|] eqn:Hp.
  - rewrite (getProjectFiles_run _ _ _ _ Hp) in H. injection H as _ <-.
    cbn [db]. apply db_wf_insert_project; [|done].
    destruct Hwf as (_ & Hps & _). destruct (Hps pid p Hp) as [Hid Hn].
    split; [done|]. cbn [with_last_modified p_name]. congruence.
  - rewrite getProjectFiles_missing in H by done. by injection H as _ <-.
Qed.

Lemma keeps_setSettings s : keeps wf (setSettings s).
Proof. intros w r w' H Hwf. by injection H as _ <-. Qed.

Lemma keeps_applyChange change :
  keeps wf (applyChange md5 Date_now_at atob change).
Proof.
  unfold applyChange.
  destruct (cl_type change =? "deleteFile")%string; [apply keeps_deleteFile|].
  destruct (cl_type change =? "editFile")%string; [apply keeps_writeFile|].
  destruct (cl_type change =? "newFile")%string.
  - apply keeps_await; [apply keeps_newFile|]. intros _. apply keeps_resolve.
  - by intros w r w' [= _ <-].
Qed.

(** X16.  Every method of the class that writes keeps the invariant of the
    database, whether it returns or throws: files stay under their own id
    with a stored project and the checksum of their contents, projects stay
    under the digest of their name, and the change log stays well formed.
    [pushChangeLog] keeps it for a change without [id]. *)
Theorem methods_keep_db_wf :
  (∀ fid contents, keeps wf (writeFile md5 Date_now_at fid contents)) ∧
  (∀ fid newName, keeps wf (renameFile fid newName)) ∧
  (∀ id, keeps wf (deleteFile id)) ∧
  (∀ pid name contents base64,
     keeps wf (newFile md5 Date_now_at atob pid name contents base64)) ∧
  (∀ name, keeps wf (newProject md5 Date_now_at name)) ∧
  (∀ pid, keeps wf (deleteProject pid)) ∧
  (∀ pid question filename, keeps wf (setFileToRun pid question filename)) ∧
  (∀ proj question fid, keeps wf (addOpenTab proj question fid)) ∧
  (∀ proj question fid, keeps wf (removeOpenTab proj question fid)) ∧
  (∀ pid, keeps wf (getProjectFiles Date_now_at pid)) ∧
  (∀ s, keeps wf (setSettings s)) ∧
  (∀ change, cl_id change = None -> keeps wf (pushChangeLog change)) ∧
  keeps wf popChangeLog ∧
  keeps wf clearChangeLogs.
Proof.
  split_and!.
  - apply keeps_writeFile.
  - apply keeps_renameFile.
  - apply keeps_deleteFile.
  - apply keeps_newFile.
  - apply keeps_newProject.
  - apply keeps_deleteProject.
  - apply keeps_setFileToRun.
  - apply keeps_addOpenTab.
  - apply keeps_removeOpenTab.
  - apply keeps_getProjectFiles.
  - apply keeps_setSettings.
  - apply keeps_pushChangeLog.
  - apply keeps_popChangeLog.
  - apply keeps_clearChangeLogs.
Qed.

(** X17.  [applyChanges] keeps the invariant of the database for every
    batch: when it throws the database is the one before the call, and when
    it returns every step of the batch has kept the invariant. *)
Theorem applyChanges_keeps_db_wf (w : World) (changeLogs : list ChangeLog)
    (newProjects deletedProjects : list string) (r : Result unit)
    (w' : World) :
  db_wf md5 (db w) ->
  applyChanges md5 Date_now_at atob changeLogs newProjects deletedProjects w
    = (r, w') ->
  db_wf md5 (db w').
Proof.
  intros Hwf H. revert w r w' H Hwf. change (keeps wf
    (applyChanges md5 Date_now_at atob changeLogs newProjects
       deletedProjects)).
  unfold applyChanges, applyChanges_body. apply keeps_transaction.
  apply keeps_await.
  { apply keeps_for_of. intros name.
    apply keeps_await; [apply keeps_newProject|]. intros _.
    apply keeps_resolve. }
  intros _. apply keeps_await; [apply keeps_for_of, keeps_applyChange|].
  intros _. apply keeps_await; [apply keeps_for_of, keeps_deleteProject|].
  intros _. apply keeps_clearChangeLogs.
Qed.

End InvariantKept.

Lemma db_wf_world_two : db_wf md5_table (db world_two).
Proof.
  split_and!.
  - apply map_Forall_insert_2; [|apply map_Forall_singleton];
      (split_and!; [reflexivity|by eexists|reflexivity]).
  - apply map_Forall_singleton. by split.
  - split_and!; cbn.
    + repeat constructor.
    + repeat constructor; cbn; lia.
    + lia.
Qed.

Lemma applyChanges_keeps_db_wf_witness :
  exists w',
    applyChanges md5_table clock_ms no_atob
      [mkChangeLog None "deleteFile" None (mkFileRef "q1/util.c" "A1");
       mkChangeLog None "editFile" (Some "v2") (mkFileRef "q1/main.c" "A1")]
      [] [] world_two = (Ok tt, w') ∧
    db_wf md5_table (db w').
Proof.
  eexists. split; [vm_compute; reflexivity|].
  apply (applyChanges_keeps_db_wf md5_table clock_ms no_atob world_two
           [mkChangeLog None "deleteFile" None (mkFileRef "q1/util.c" "A1");
            mkChangeLog None "editFile" (Some "v2")
              (mkFileRef "q1/main.c" "A1")] [] [] (Ok tt) _).
  - apply db_wf_world_two.
  - vm_compute. reflexivity.
Defined.

(** ** More on reconciliation *)

Lemma await_ok_inv {A B} (m : Promise A) (k : A -> Promise B) w b w' :
  await m k w = (Ok b, w') ->
  exists a w1, m w = (Ok a, w1) ∧ k a w1 = (Ok b, w').
Proof.
  unfold await. destruct (m w) as [[a|e] w1]; [|done]. by eexists _, _.
Qed.

Lemma for_of_throws_inv {A} (I : StorageDB -> Prop) (Q : Error -> Prop)
    (body : A -> Promise unit) (l : list A) (x : A) :
  x ∈ l ->
  (∀ y, y ∈ l -> keeps I (body y)) ->
  (∀ y w e w', y ∈ l -> body y w = (Throw e, w') -> Q e) ->
  (∀ w, I (db w) -> exists e w', body x w = (Throw e, w')) ->
  ∀ w, I (db w) -> exists e w', for_of l body w = (Throw e, w') ∧ Q e.
Proof.
  intros Hin Hk HQ Hx. induction l as [|y l IH]; [by apply elem_of_nil in Hin|].
  intros w HI. cbn [for_of]. unfold await.
  destruct (body y w) as [[[]|e] w1] eqn:Hy.
  - apply elem_of_cons in Hin as [->|Hin].
    + destruct (Hx w HI) as (e & w' & He). congruence.
    + apply IH; [done| | |].
      * intros z Hz. apply Hk. by apply elem_of_cons; right.
      * intros z w0 e w0' Hz. apply HQ. by apply elem_of_cons; right.
      * eapply Hk; [|exact Hy|exact HI]. by apply elem_of_cons; left.
  - exists e, w1. split; [done|]. eapply HQ; [|exact Hy].
    by apply elem_of_cons; left.
Qed.

Section ReconciliationMore.

Variable md5 : string -> string.
Variable Date_now_at : nat -> Z.
Variable atob : string -> option string.

(** The id [applyChanges] derives for the target of an entry. *)
Definition derived_id (c : ChangeLog) : string :=
  md5 (md5 (ref_project (cl_file c)) +:+ ref_file (cl_file c)).

(** X18.  Whenever [applyChanges] returns, the change log has no rows:
    [getChangeLogs] returns the empty list, [topChangeLog] and
    [popChangeLog] return false. *)
Theorem applyChanges_leaves_empty_log (w w' : World)
    (remoteLog : list ChangeLog) (newProjects deletedProjects : list string) :
  applyChanges md5 Date_now_at atob remoteLog newProjects deletedProjects w
    = (Ok tt, w') ->
  rows (changeLogs (db w')) = [] ∧
  getChangeLogs w' = (Ok [], w') ∧
  countChangeLogs w' = (Ok 0%nat, w') ∧
  topChangeLog w' = (Ok None, w') ∧
  popChangeLog w' = (Ok None, w').
Proof.
  intros H. unfold applyChanges, transaction in H.
  destruct (applyChanges_body _ _ _ _ _ _ w) as [[[]|e] w1] eqn:Hb; [|done].
  injection H as <-. unfold applyChanges_body in Hb.
  apply await_ok_inv in Hb as (_ & wa & _ & Hb).
  apply await_ok_inv in Hb as (_ & wb & _ & Hb).
  apply await_ok_inv in Hb as (_ & wc & _ & Hb).
  rewrite clearChangeLogs_run in Hb. injection Hb as <-.
  assert (changeLogs (db (set_db (set_changeLogs clear_rows) wc))
          = {| rows := []; keygen := keygen (changeLogs (db wc)) |})
    as Ht by reflexivity.
  split_and!.
  - by rewrite Ht.
  - unfold getChangeLogs. apply transaction_ok. unfold gets. by rewrite Ht.
  - unfold countChangeLogs. apply transaction_ok. unfold gets. by rewrite Ht.
  - rewrite topChangeLog_run. by rewrite Ht.
  - rewrite popChangeLog_value. rewrite Ht. cbn.
    by destruct wc as [[? ? ? ?] ?].
Qed.

Lemma newProject_throws_ConstraintError name w e w' :
  newProject md5 Date_now_at name w = (Throw e, w') -> e = ConstraintError.
Proof.
  intros H. destruct (projects (db w) !! md5 name) as [p|] eqn:Hp.
  - rewrite (newProject_exists _ _ _ _ _ Hp) in H. by injection H as <-.
  - by rewrite (newProject_run _ _ _ _ Hp) in H.
Qed.

Lemma keeps_project_stored pid name :
  keeps (fun d => is_Some (projects d !! pid))
    (newProject md5 Date_now_at name).
Proof.
  intros w r w' H HI. destruct (projects (db w) !! md5 name) as [p|] eqn:Hp.
  - rewrite (newProject_exists _ _ _ _ _ Hp) in H. by injection H as _ <-.
  - rewrite (newProject_run _ _ _ _ Hp) in H. injection H as _ <-.
    cbn [db set_projects projects]. rewrite lookup_insert_is_Some.
    destruct (decide (md5 name = pid)); auto.
Qed.

(** X19.  When the name of a project that is already stored is among the new
    projects of a batch, [applyChanges] throws a ConstraintError and the
    database is the one before the call. *)
Theorem applyChanges_existing_project (w : World) (name : string)
    (changeLogs : list ChangeLog) (newProjects deletedProjects : list string) :
  name ∈ newProjects ->
  is_Some (projects (db w) !! md5 name) ->
  exists w',
    applyChanges md5 Date_now_at atob changeLogs newProjects deletedProjects w
      = (Throw ConstraintError, w') ∧
    db w' = db w.
Proof.
  intros Hin Hp.
  destruct (for_of_throws_inv
              (fun d => is_Some (projects d !! md5 name))
              (fun e => e = ConstraintError)
              (fun proj => newProject md5 Date_now_at proj >> resolve tt)
              newProjects name Hin) with (w := w) as (e & w1 & Hl & ->).
  - intros y _. apply keeps_await; [apply keeps_project_stored|].
    intros _. apply keeps_resolve.
  - intros y w0 e w0' _ H. unfold await in H.
    destruct (newProject _ _ y w0) as [[b|e'] w2] eqn:Hn; [done|].
    injection H as <- _. by eapply newProject_throws_ConstraintError.
  - intros w0 [p Hp0]. eexists _, _.
    by erewrite await_throw by (by eapply newProject_exists).
  - done.
  - eexists. split.
    + unfold applyChanges. apply transaction_throw.
      unfold applyChanges_body. by erewrite await_throw by exact Hl.
    + reflexivity.
Qed.

Lemma keeps_file_absent_newProject fid name :
  keeps (fun d => files d !! fid = None) (newProject md5 Date_now_at name).
Proof.
  intros w r w' H HI. destruct (projects (db w) !! md5 name) as [p|] eqn:Hp.
  - rewrite (newProject_exists _ _ _ _ _ Hp) in H. by injection H as _ <-.
  - rewrite (newProject_run _ _ _ _ Hp) in H. by injection H as _ <-.
Qed.

Lemma keeps_file_absent_applyChange fid c :
  (cl_type c = "newFile" -> derived_id c ≠ fid) ->
  keeps (fun d => files d !! fid = None)
    (applyChange md5 Date_now_at atob c).
Proof.
  intros Hc w r w' H HI. unfold applyChange in H. fold (derived_id c) in H.
  destruct (String.eqb_spec (cl_type c) "deleteFile") as [_|_].
  { destruct (files (db w) !! derived_id c) as [f|] eqn:Hf.
    - destruct (projects (db w) !! f_project f) as [p|] eqn:Hp.
      + rewrite (deleteFile_run _ _ _ _ Hf Hp) in H. injection H as _ <-.
        cbn [db set_db set_projects pushed set_changeLogs set_files files].
        apply lookup_delete_None. by right.
      + rewrite (deleteFile_orphan _ _ _ Hf Hp) in H. by injection H as _ <-.
    - rewrite deleteFile_missing in H by done. by injection H as _ <-. }
  destruct (String.eqb_spec (cl_type c) "editFile") as [_|_].
  { destruct (files (db w) !! derived_id c) as [f|] eqn:Hf.
    - rewrite (writeFile_run _ _ _ _ _ _ Hf) in H. injection H as _ <-.
      cbn [db set_files pushed set_changeLogs files].
      by apply lookup_alter_None.
    - rewrite writeFile_missing in H by done. by injection H as _ <-. }
  destruct (String.eqb_spec (cl_type c) "newFile") as [Hty|_];
    [|by injection H as _ <-].
  specialize (Hc Hty). unfold await in H.
  set (pid := md5 (ref_project (cl_file c))) in *.
  set (name := ref_file (cl_file c)) in *.
  destruct (newFile _ _ _ pid name (cl_contents c) false w)
    as [rb w1] eqn:Hnew.
  assert (files (db w1) !! fid = None) as HI1.
  { pose proof (decode_contents_plain atob (default "" (cl_contents c)) w)
      as Hd.
    destruct (named_in name pid (files (db w))) as [|n] eqn:Hn.
    2:{ rewrite (newFile_exists _ _ _ _ _ _ _ _ _ Hd) in Hnew by lia.
        by injection Hnew as _ <-. }
    destruct (projects (db w) !! pid) as [p|] eqn:Hp.
    2:{ rewrite (newFile_no_project _ _ _ _ _ _ _ _ _ Hd Hn Hp) in Hnew.
        by injection Hnew as _ <-. }
    destruct (files (db w) !! md5 (pid +:+ name)) as [g|] eqn:Hf.
    { rewrite (newFile_key_in_use _ _ _ _ _ _ _ _ _ _ _ Hd Hn Hp Hf) in Hnew.
      by injection Hnew as _ <-. }
    rewrite (newFile_run _ _ _ _ _ _ _ _ _ _ Hd Hn Hp Hf) in Hnew.
    injection Hnew as _ <-.
    cbn [db set_files pushed set_changeLogs files].
    by rewrite lookup_insert_ne. }
  destruct rb; by injection H as _ <-.
Qed.

(** X20.  A remote deleteFile or editFile entry for a file that is not
    stored, and that no newFile entry of the batch creates, makes
    [applyChanges] throw; the database is the one before the call.  This is
    what happens when the remote log deletes the files of a project that was
    deleted locally. *)
Theorem applyChanges_missing_file (w : World) (c : ChangeLog)
    (changeLogs : list ChangeLog) (newProjects deletedProjects : list string) :
  c ∈ changeLogs ->
  cl_type c = "deleteFile" ∨ cl_type c = "editFile" ->
  files (db w) !! derived_id c = None ->
  (∀ c', c' ∈ changeLogs -> cl_type c' = "newFile" ->
         derived_id c' ≠ derived_id c) ->
  exists e w',
    applyChanges md5 Date_now_at atob changeLogs newProjects deletedProjects w
      = (Throw e, w') ∧
    db w' = db w.
Proof.
  intros Hin Hty Hf Hnew.
  assert (exists e w',
            applyChanges_body md5 Date_now_at atob changeLogs newProjects
              deletedProjects w = (Throw e, w')) as (e & w' & Hb).
  { unfold applyChanges_body, await.
    destruct (for_of newProjects _ w) as [[[]|e] w1] eqn:Hl; [|by eauto].
    assert (files (db w1) !! derived_id c = None) as Hf1.
    { eapply (keeps_for_of (fun d => files d !! derived_id c = None));
        [|exact Hl|exact Hf].
      intros name. apply keeps_await; [apply keeps_file_absent_newProject|].
      intros _. apply keeps_resolve. }
    destruct (for_of_throws_inv
                (fun d => files d !! derived_id c = None) (fun _ => True)
                (applyChange md5 Date_now_at atob) changeLogs c Hin)
      with (w := w1) as (e & w2 & -> & _); [| | |done|by eauto].
    - intros y Hy. apply keeps_file_absent_applyChange. by apply Hnew.
    - done.
    - intros w0 Hw0. unfold applyChange. fold (derived_id c).
      destruct Hty as [-> | ->]; cbn [String.eqb Ascii.eqb Bool.eqb].
      + eexists _, _. by apply deleteFile_missing.
      + eexists _, _. by apply writeFile_missing. }
  eexists _, _. split.
  - unfold applyChanges. by apply transaction_throw.
  - reflexivity.
Qed.

End ReconciliationMore.

Lemma applyChanges_leaves_empty_log_witness :
  exists w',
    applyChanges md5_table clock_ms no_atob
      [mkChangeLog None "editFile" (Some "v2") (mkFileRef "q1/main.c" "A1")]
      [] [pid_A1] world_two = (Ok tt, w') ∧
    rows (changeLogs (db w')) = [] ∧
    getChangeLogs w' = (Ok [], w') ∧
    countChangeLogs w' = (Ok 0%nat, w') ∧
    topChangeLog w' = (Ok None, w') ∧
    popChangeLog w' = (Ok None, w').
Proof.
  eexists. split; [vm_compute; reflexivity|].
  apply (applyChanges_leaves_empty_log md5_table clock_ms no_atob world_two _
           [mkChangeLog None "editFile" (Some "v2")
              (mkFileRef "q1/main.c" "A1")] [] [pid_A1]).
  vm_compute. reflexivity.
Defined.

Lemma applyChanges_existing_project_witness :
  exists w',
    applyChanges md5_table clock_ms no_atob
      [mkChangeLog None "editFile" (Some "v2") (mkFileRef "q1/main.c" "A1")]
      ["A1"] [] world_main = (Throw ConstraintError, w') ∧
    db w' = db world_main.
Proof.
  apply (applyChanges_existing_project md5_table clock_ms no_atob world_main
           "A1").
  - apply elem_of_cons. left. reflexivity.
  - eexists. reflexivity.
Defined.

Lemma applyChanges_missing_file_witness :
  exists e w',
    applyChanges md5_table clock_ms no_atob
      [mkChangeLog None "deleteFile" None (mkFileRef "q1/util.c" "A1")]
      [] [] world_main = (Throw e, w') ∧
    db w' = db world_main.
Proof.
  apply (applyChanges_missing_file md5_table clock_ms no_atob world_main
           (mkChangeLog None "deleteFile" None (mkFileRef "q1/util.c" "A1"))).
  - apply elem_of_cons. left. reflexivity.
  - left. reflexivity.
  - reflexivity.
  - intros c' Hc' Hty. apply list_elem_of_singleton in Hc'. subst c'.
    discriminate Hty.
Defined.

(** ** Data URIs *)

Fixpoint no_semicolon (s : string) : bool :=
  match s with
  | EmptyString => true
  | String c s' => negb (is_semicolon c) && no_semicolon s'
  end.

Lemma string_of_list_ascii_snoc (l : list ascii) (c : ascii) (s : string) :
  string_of_list_ascii (l ++ [c]) +:+ s =
  string_of_list_ascii l +:+ String c s.
Proof.
  induction l as [|a l IH]; [done|].
  change (String a (string_of_list_ascii (l ++ [c]) +:+ s) =
          String a (string_of_list_ascii l +:+ String c s)).
  by rewrite IH.
Qed.

Lemma append_empty_r (s : string) : s +:+ "" = s.
Proof.
  induction s as [|c s IH]; [done|].
  change (String c (s +:+ "") = String c s). by rewrite IH.
Qed.

(** The greedy run takes all of [mime] when what follows lets the rest of
    the expression match. *)
Lemma not_semicolon_star_longest {R} (acc : list ascii) (mime rest : string)
    (k : string -> string -> option R) (r : R) :
  no_semicolon mime = true ->
  rest = "" ∨ (exists rest', rest = String ";"%char rest') ->
  k (string_of_list_ascii (rev acc) +:+ mime) rest = Some r ->
  not_semicolon_star acc (mime +:+ rest) k = Some r.
Proof.
  revert acc. induction mime as [|c m IH]; intros acc Hm Hrest Hk.
  - rewrite append_empty_r in Hk. change ("" +:+ rest) with rest.
    destruct Hrest as [->|[rest' ->]]; cbn; done.
  - cbn [no_semicolon] in Hm. apply andb_prop in Hm as [Hc Hm].
    apply negb_true_iff in Hc.
    change (String c m +:+ rest) with (String c (m +:+ rest)).
    cbn [not_semicolon_star].
    rewrite Hc. rewrite (IH (c :: acc)); [done|done|done|].
    cbn [rev]. by rewrite string_of_list_ascii_snoc.
Qed.

Lemma data_uri_match_base64_uri (mime payload : string) :
  no_semicolon mime = true ->
  data_uri_match ("data:" +:+ mime +:+ ";base64," +:+ payload) =
  Some {| rm1 := captured mime; rm2 := None; rm3 := Some "base64";
          rm4 := dot_star payload |}.
Proof.
  intros Hm. unfold data_uri_match.
  change (strip_prefix "data:" ("data:" +:+ mime +:+ ";base64," +:+ payload))
    with (Some (mime +:+ ";base64," +:+ payload)).
  apply not_semicolon_star_longest; [done|right; by eexists|].
  reflexivity.
Qed.

Section DataURI.

Variable md5 : string -> string.
Variable Date_now_at : nat -> Z.
Variable atob : string -> option string.

Lemma decode_contents_base64_uri (mime payload : string) w :
  no_semicolon mime = true ->
  decode_contents atob ("data:" +:+ mime +:+ ";base64," +:+ payload) true w =
  match atob (dot_star payload) with
  | Some s => (Ok s, w)
  | None => (Throw InvalidCharacterError, w)
  end.
Proof.
  intros Hm. unfold decode_contents.
  rewrite data_uri_match_base64_uri by done. cbn [rm3 rm4 defined orb].
  by destruct (atob (dot_star payload)).
Qed.

(** X21.  [newFile] with [base64] on a data URI "data:<mime>;base64,<payload>"
    whose mime type has no semicolon stores what [atob] makes of the first
    line of the payload, with the digest of the decoded contents as checksum
    and the decoded contents in the newFile log entry; without [base64] the
    URI itself is stored. *)
Theorem newFile_decodes_data_uri (w : World) (pid name mime payload : string)
    (decoded : string) (p : ProjectStored) :
  no_semicolon mime = true ->
  atob (dot_star payload) = Some decoded ->
  named_in name pid (files (db w)) = 0%nat ->
  projects (db w) !! pid = Some p ->
  files (db w) !! md5 (pid +:+ name) = None ->
  let uri := "data:" +:+ mime +:+ ";base64," +:+ payload in
  exists b w1 b' w1',
    newFile md5 Date_now_at atob pid name (Some uri) true w = (Ok b, w1) ∧
    f_contents <$> files (db w1) !! fb_id b = Some (Some decoded) ∧
    fb_checksum b = md5 decoded ∧
    cl_contents <$> top_row (changeLogs (db w1)) = Some (Some decoded) ∧
    newFile md5 Date_now_at atob pid name (Some uri) false w = (Ok b', w1') ∧
    f_contents <$> files (db w1') !! fb_id b' = Some (Some uri).
Proof.
  intros Hm Ha Hn Hp Hf uri.
  assert (decode_contents atob (default "" (Some uri)) true w = (Ok decoded, w))
    as Hd.
  { change (default "" (Some uri))
      with ("data:" +:+ mime +:+ ";base64," +:+ payload).
    rewrite decode_contents_base64_uri by done. by rewrite Ha. }
  eexists _, _, _, _. split_and!.
  - by apply (newFile_run md5 Date_now_at atob w pid name (Some uri) true
                decoded p).
  - cbn [db set_files pushed set_changeLogs files mkBrief fb_id created f_id].
    by rewrite lookup_insert_eq.
  - reflexivity.
  - cbn [db set_files pushed set_changeLogs changeLogs].
    rewrite push_log_fresh by done. cbn [snd].
    by rewrite top_row_snoc.
  - by apply (newFile_run md5 Date_now_at atob w pid name (Some uri) false
                uri p (decode_contents_plain atob _ w)).
  - cbn [db set_files pushed set_changeLogs files mkBrief fb_id created f_id].
    by rewrite lookup_insert_eq.
Qed.

(** X22.  When [atob] rejects the payload of such a URI, [newFile] with
    [base64] throws the error of [atob] before it opens its transaction:
    nothing is written and the clock is not read. *)
Theorem newFile_undecodable_payload (w : World)
    (pid name mime payload : string) :
  no_semicolon mime = true ->
  atob (dot_star payload) = None ->
  newFile md5 Date_now_at atob pid name
    (Some ("data:" +:+ mime +:+ ";base64," +:+ payload)) true w =
  (Throw InvalidCharacterError, w).
Proof.
  intros Hm Ha. apply newFile_undecodable.
  change (default "" (Some ("data:" +:+ mime +:+ ";base64," +:+ payload)))
    with ("data:" +:+ mime +:+ ";base64," +:+ payload).
  rewrite decode_contents_base64_uri by done. by rewrite Ha.
Qed.

End DataURI.

(** [atob] on the payloads of the examples: "aGk=" is "hi" in base 64 and a
    payload with other characters is rejected. *)
Definition atob_table (s : string) : option string :=
  if (s =? "aGk=")%string then Some "hi" else None.

Definition md5_hi (s : string) : string :=
  if (s =? "hi")%string then "49f68a5c8493ec2c0bf489821c21fc3b"
  else md5_table s.

Lemma newFile_decodes_data_uri_witness :
  exists b w1 b' w1',
    newFile md5_hi clock_ms atob_table pid_A1 "q1/util.c"
      (Some "data:text/plain;base64,aGk=") true world_main = (Ok b, w1) ∧
    f_contents <$> files (db w1) !! fb_id b = Some (Some "hi") ∧
    fb_checksum b = "49f68a5c8493ec2c0bf489821c21fc3b" ∧
    cl_contents <$> top_row (changeLogs (db w1)) = Some (Some "hi") ∧
    newFile md5_hi clock_ms atob_table pid_A1 "q1/util.c"
      (Some "data:text/plain;base64,aGk=") false world_main = (Ok b', w1') ∧
    f_contents <$> files (db w1') !! fb_id b' =
      Some (Some "data:text/plain;base64,aGk=").
Proof.
  apply (newFile_decodes_data_uri md5_hi clock_ms atob_table world_main
           pid_A1 "q1/util.c" "text/plain" "aGk=" "hi" project_A1).
  - reflexivity.
  - reflexivity.
  - vm_compute. reflexivity.
  - reflexivity.
  - reflexivity.
Defined.

Lemma newFile_undecodable_payload_witness :
  newFile md5_hi clock_ms atob_table pid_A1 "q1/util.c"
    (Some "data:text/plain;base64,%%%") true world_main =
  (Throw InvalidCharacterError, world_main).
Proof.
  apply (newFile_undecodable_payload md5_hi clock_ms atob_table world_main
           pid_A1 "q1/util.c" "text/plain" "%%%").
  - reflexivity.
  - reflexivity.
Defined.

(** ** After a file is deleted *)

(** X23.  After [deleteFile] of a stored file whose project is stored, the
    id is free: [readFile], [writeFile], [renameFile] and a second
    [deleteFile] throw "file does not exist".  The newest change-log entry
    is the deleteFile entry for the name and project of the file.  Of the
    run entries of the project exactly those equal to the id are removed. *)
Theorem deleteFile_then (w : World) (id newName question : string)
    (f : FileStored) (p : ProjectStored) (md5 : string -> string)
    (Date_now_at : nat -> Z) (contents : option string) :
  files (db w) !! id = Some f ->
  projects (db w) !! f_project f = Some p ->
  exists w1 p1,
    deleteFile id w = (Ok tt, w1) ∧
    readFile id w1 = (Throw (FileDoesNotExist id), w1) ∧
    writeFile md5 Date_now_at id contents w1 =
      (Throw (FileDoesNotExist id), w1) ∧
    renameFile id newName w1 = (Throw (FileDoesNotExist id), w1) ∧
    deleteFile id w1 = (Throw (FileDoesNotExist id), w1) ∧
    (∀ k, k ≠ id -> files (db w1) !! k = files (db w) !! k) ∧
    top_row (changeLogs (db w1)) =
      Some (with_id (keygen (changeLogs (db w))) (delete_entry f)) ∧
    projects (db w1) !! f_project f = Some p1 ∧
    (∀ v, p_runs p1 !! question = Some v ↔
          p_runs p !! question = Some v ∧ v ≠ id) ∧
    p_name p1 = p_name p ∧ p_last_modified p1 = p_last_modified p.
Proof.
  intros Hf Hp.
  pose proof (deleteFile_run w id f p Hf Hp) as H1.
  set (w1 := set_db _ w) in H1.
  assert (files (db w1) = delete id (files (db w))) as Hfs by reflexivity.
  assert (files (db w1) !! id = None) as Hnone
    by (rewrite Hfs; apply lookup_delete_eq).
  exists w1, (prune_runs id p). split_and!; try done.
  - by apply readFile_missing.
  - by apply writeFile_missing.
  - by apply renameFile_missing.
  - by apply deleteFile_missing.
  - intros k Hk. rewrite Hfs. by apply lookup_delete_ne.
  - subst w1. cbn [db set_db set_projects pushed set_changeLogs changeLogs].
    rewrite push_log_fresh by done. cbn [snd set_files changeLogs].
    by rewrite top_row_snoc.
  - assert (projects (db w1) =
            alter (fun _ => prune_runs id p) (f_project f) (projects (db w)))
      as -> by reflexivity.
    by rewrite lookup_alter_eq, Hp.
  - intros v. cbn [prune_runs p_runs]. apply map_lookup_filter_Some.
Qed.

Lemma deleteFile_then_witness :
  exists w1 p1,
    deleteFile fid_main world_two = (Ok tt, w1) ∧
    readFile fid_main w1 = (Throw (FileDoesNotExist fid_main), w1) ∧
    writeFile md5_table clock_ms fid_main (Some "Z") w1 =
      (Throw (FileDoesNotExist fid_main), w1) ∧
    renameFile fid_main "q1/b.c" w1 =
      (Throw (FileDoesNotExist fid_main), w1) ∧
    deleteFile fid_main w1 = (Throw (FileDoesNotExist fid_main), w1) ∧
    (∀ k, k ≠ fid_main -> files (db w1) !! k = files (db world_two) !! k) ∧
    top_row (changeLogs (db w1)) = Some (with_id 3 (delete_entry file_main)) ∧
    projects (db w1) !! pid_A1 = Some p1 ∧
    (∀ v, p_runs p1 !! "q1" = Some v ↔
          p_runs project_A1 !! "q1" = Some v ∧ v ≠ fid_main) ∧
    p_name p1 = "A1" ∧ p_last_modified p1 = 1500000000000%Z.
Proof.
  apply (deleteFile_then world_two fid_main "q1/b.c" "q1" file_main project_A1
           md5_table clock_ms (Some "Z")).
  - reflexivity.
  - reflexivity.
Defined.
